(** * Daily Focus OS: the day-state rules engine of [src/App.tsx]

    A shallow embedding of the Recoil atoms, the two selectors and the
    [useCallback] handlers of the [DailyFocusOS] component, together with
    the guards that the [CommitmentCard] and [ReflectionModal] components
    put in front of those handlers, and the [handleAddTask] handler of the
    mobile variant of the same component.

    Conventions.
    - A JavaScript string is the list of its UTF-16 code units.
    - A JavaScript number that the program only ever uses as an integer
      (timer seconds, focus minutes, counts, epoch milliseconds) is a [Z].
    - [new Date()] and [Date.now()] read the wall clock; every handler that
      reads it takes the reading as an argument of type [Clock].
    - The four atoms form one [Store]; [setDayData], [setUi], [setFocusMode]
      and [setSettings] are store transformers, and a handler is the
      composition of the setter calls it makes, in program order.  A handler
      reads the atoms and selectors from the store it is applied to: the
      component is re-rendered between two user events. *)

From Stdlib Require Import ZArith List Bool Lia String Ascii DecimalString DecimalZ.
Import ListNotations.
Open Scope Z_scope.

(** ** JavaScript strings *)

Module JS.

Definition jsstring := list N.

(** [WhiteSpace] and [LineTerminator] of ECMAScript, the code points
    that [String.prototype.trim] strips. *)
Definition isWhiteSpace (c : N) : bool :=
  ((9 <=? c) && (c <=? 13)       (* TAB, LF, VT, FF, CR *)
   || (c =? 32)                  (* SPACE *)
   || (c =? 160)                 (* NO-BREAK SPACE *)
   || (c =? 5760)                (* U+1680 *)
   || (8192 <=? c) && (c <=? 8202)   (* U+2000 .. U+200A *)
   || (c =? 8232) || (c =? 8233) (* LINE and PARAGRAPH SEPARATOR *)
   || (c =? 8239)                (* U+202F *)
   || (c =? 8287)                (* U+205F *)
   || (c =? 12288)               (* U+3000 *)
   || (c =? 65279))%N.           (* U+FEFF *)

Fixpoint trimStart (s : jsstring) : jsstring :=
  match s with
  | [] => []
  | c :: s' => if isWhiteSpace c then trimStart s' else s
  end.

Definition trimEnd (s : jsstring) : jsstring := rev (trimStart (rev s)).

Definition trim (s : jsstring) : jsstring := trimEnd (trimStart s).

Definition length (s : jsstring) : Z := Z.of_nat (List.length s).

(** [ToBoolean] on a string: the empty string is the only falsy one. *)
Definition truthy (s : jsstring) : bool :=
  match s with [] => false | _ :: _ => true end.

(** [===] on strings. *)
Fixpoint eqb (a b : jsstring) : bool :=
  match a, b with
  | [], [] => true
  | x :: a', y :: b' => N.eqb x y && eqb a' b'
  | _, _ => false
  end.

(** A literal of the source, written in ASCII. *)
Fixpoint lit (s : string) : jsstring :=
  match s with
  | EmptyString => []
  | String a s' => N_of_ascii a :: lit s'
  end.

(** [Number.prototype.toString] on an integer. *)
Definition toString (n : Z) : jsstring :=
  lit (NilEmpty.string_of_int (Z.to_int n)).

End JS.

Abbreviation jsstring := JS.jsstring.

(** ** Types and interfaces *)

(** The wall clock as one handler call reads it: [now] is [new Date()]
    (and [Date.now()]) in epoch milliseconds, [isoDay] is
    [new Date().toISOString().split('T')[0]].  The reads that one call
    makes are taken to return the same instant. *)
Record Clock := mkClock { now : Z; isoDay : jsstring }.

Record TimeSlot := mkTimeSlot { start : Z; end_ : Z }.

Module Commitment.
(** [interface Commitment].  [lastUpdated] is not declared by the
    interface: [handleUpdateCommitment] adds it to the object it builds. *)
Record t := mk {
  id : jsstring;
  text : jsstring;
  completed : bool;
  timeSlot : option TimeSlot;
  createdAt : Z;
  locked : bool;
  lastUpdated : option Z
}.
End Commitment.

Module DayData.
Record t := mk {
  date : jsstring;
  commitments : list Commitment.t;
  focusScore : Z;
  reflection : jsstring;
  morningQuestion : jsstring;
  completed : bool;
  focusTime : Z;
  lastUpdated : Z
}.
End DayData.

Inductive Theme := dark | light.

Record UserSettings := mkUserSettings {
  theme : Theme;
  isPro : bool;
  dailyResetTime : Z
}.

Module FocusMode.
Record t := mk {
  isActive : bool;
  currentCommitmentId : option jsstring;
  timer : Z
}.
End FocusMode.

Record Ui := mkUi {
  showMorningModal : bool;
  showReflectionModal : bool;
  showUpgradeModal : bool;
  isDragging : bool
}.

(** ** Recoil atoms *)

Record Store := mkStore {
  dayData : DayData.t;
  settings : UserSettings;
  focusMode : FocusMode.t;
  ui : Ui
}.

Definition currentDayState_default (clk : Clock) : DayData.t :=
  DayData.mk (isoDay clk) [] 0 [] [] false 0 (now clk).

Definition userSettingsState_default : UserSettings :=
  mkUserSettings dark false 6.

Definition focusModeState_default : FocusMode.t :=
  FocusMode.mk false None 0.

Definition uiState_default : Ui := mkUi true false false false.

Definition initialStore (clk : Clock) : Store :=
  mkStore (currentDayState_default clk) userSettingsState_default
          focusModeState_default uiState_default.

Definition setDayData (f : DayData.t -> DayData.t) (s : Store) : Store :=
  mkStore (f (dayData s)) (settings s) (focusMode s) (ui s).

Definition setSettings (f : UserSettings -> UserSettings) (s : Store) : Store :=
  mkStore (dayData s) (f (settings s)) (focusMode s) (ui s).

Definition setFocusMode (f : FocusMode.t -> FocusMode.t) (s : Store) : Store :=
  mkStore (dayData s) (settings s) (f (focusMode s)) (ui s).

Definition setUi (f : Ui -> Ui) (s : Store) : Store :=
  mkStore (dayData s) (settings s) (focusMode s) (f (ui s)).

(** ** Recoil selectors *)

Record Counts := mkCounts { total : Z; completedCount : Z; lockedCount : Z }.

Definition commitmentsCountSelector (day : DayData.t) : Counts :=
  mkCounts
    (Z.of_nat (List.length (DayData.commitments day)))
    (Z.of_nat (List.length (filter Commitment.completed (DayData.commitments day))))
    (Z.of_nat (List.length (filter Commitment.locked (DayData.commitments day)))).

Definition focusScoreSelector (day : DayData.t) : Z :=
  let commitments := commitmentsCountSelector day in
  let score := 0 in
  (* +40 for all commitments completed *)
  let score :=
    if (completedCount commitments =? total commitments) && (total commitments >? 0)
    then score + 40 else score in
  (* +20 for focus mode used *)
  let score := if DayData.focusTime day >? 0 then score + 20 else score in
  (* +20 for reflection written *)
  let score :=
    if JS.length (JS.trim (DayData.reflection day)) >? 0 then score + 20 else score in
  (* +20 for no edits after lock *)
  let hasLockedCommitments := existsb Commitment.locked (DayData.commitments day) in
  let hasEditsAfterLock := false in
  let score :=
    if hasLockedCommitments && negb hasEditsAfterLock then score + 20 else score in
  Z.min score 100.

(** ** Handlers of [DailyFocusOS] *)

(** The [useEffect] that seeds three sample commitments whenever the list
    is empty ("Initialize with sample commitments for demo"). *)
Definition initializeDay (clk : Clock) (s : Store) : Store :=
  if Z.of_nat (List.length (DayData.commitments (dayData s))) =? 0 then
    setDayData (fun prev =>
      DayData.mk (DayData.date prev)
        [ Commitment.mk (JS.lit "1") (JS.lit "Complete project planning") false
            (Some (mkTimeSlot 9 11)) (now clk) false None;
          Commitment.mk (JS.lit "2") (JS.lit "Write documentation") false
            (Some (mkTimeSlot 13 15)) (now clk) false None;
          Commitment.mk (JS.lit "3") (JS.lit "Code review session") false
            (Some (mkTimeSlot 16 17)) (now clk) false None ]
        (DayData.focusScore prev) (DayData.reflection prev)
        (DayData.morningQuestion prev) (DayData.completed prev)
        (DayData.focusTime prev) (DayData.lastUpdated prev)) s
  else s.

(** One firing of the [setInterval] callback of the focus-mode timer; the
    interval exists only while [isActive && timer > 0]. *)
Definition tick (s : Store) : Store :=
  if FocusMode.isActive (focusMode s) && (FocusMode.timer (focusMode s) >? 0) then
    setFocusMode (fun prev =>
      FocusMode.mk (FocusMode.isActive prev) (FocusMode.currentCommitmentId prev)
                   (FocusMode.timer prev - 1)) s
  else s.

Definition handleAddCommitment (clk : Clock) (s : Store) : Store :=
  let commitmentsCount := commitmentsCountSelector (dayData s) in
  if (total commitmentsCount >=? 3) && negb (isPro (settings s)) then
    (* Show upgrade modal or message for 4th slot *)
    setUi (fun prev =>
      mkUi (showMorningModal prev) (showReflectionModal prev) true (isDragging prev)) s
  else if total commitmentsCount >=? 4 then
    (* Max commitments reached *)
    s
  else
    let newCommitment :=
      Commitment.mk (JS.toString (now clk)) [] false None (now clk) false None in
    setDayData (fun prev =>
      DayData.mk (DayData.date prev)
        (DayData.commitments prev ++ [newCommitment])
        (DayData.focusScore prev) (DayData.reflection prev)
        (DayData.morningQuestion prev) (DayData.completed prev)
        (DayData.focusTime prev) (now clk)) s.

Definition withCommitments (prev : DayData.t) (cs : list Commitment.t) (clk : Clock)
  : DayData.t :=
  DayData.mk (DayData.date prev) cs (DayData.focusScore prev)
    (DayData.reflection prev) (DayData.morningQuestion prev)
    (DayData.completed prev) (DayData.focusTime prev) (now clk).

Definition handleUpdateCommitment (id text : jsstring) (clk : Clock) (s : Store)
  : Store :=
  setDayData (fun prev =>
    withCommitments prev
      (map (fun c =>
              if JS.eqb (Commitment.id c) id then
                Commitment.mk (Commitment.id c) text (Commitment.completed c)
                  (Commitment.timeSlot c) (Commitment.createdAt c)
                  (Commitment.locked c) (Some (now clk))
              else c)
           (DayData.commitments prev))
      clk) s.

Definition handleDeleteCommitment (id : jsstring) (clk : Clock) (s : Store) : Store :=
  setDayData (fun prev =>
    withCommitments prev
      (filter (fun c => negb (JS.eqb (Commitment.id c) id)) (DayData.commitments prev))
      clk) s.

Definition handleToggleComplete (id : jsstring) (clk : Clock) (s : Store) : Store :=
  setDayData (fun prev =>
    withCommitments prev
      (map (fun c =>
              if JS.eqb (Commitment.id c) id then
                Commitment.mk (Commitment.id c) (Commitment.text c)
                  (negb (Commitment.completed c))
                  (Commitment.timeSlot c) (Commitment.createdAt c)
                  (Commitment.locked c) (Commitment.lastUpdated c)
              else c)
           (DayData.commitments prev))
      clk) s.

Definition handleStartFocusMode (commitmentId : jsstring) (clk : Clock) (s : Store)
  : Store :=
  (* Lock all commitments when focus starts *)
  let s := setDayData (fun prev =>
    withCommitments prev
      (map (fun c =>
              Commitment.mk (Commitment.id c) (Commitment.text c)
                (Commitment.completed c) (Commitment.timeSlot c)
                (Commitment.createdAt c) true (Commitment.lastUpdated c))
           (DayData.commitments prev))
      clk) s in
  setFocusMode (fun _ => FocusMode.mk true (Some commitmentId) (25 * 60)) s.

(** [Math.floor(focusMode.timer / 60)] is [Z.div]: the timer is an integer
    and the quotient is rounded towards minus infinity. *)
Definition handleStopFocusMode (clk : Clock) (s : Store) : Store :=
  (* Add focus time to day data *)
  let focusTimeMinutes := 25 - FocusMode.timer (focusMode s) / 60 in
  let s := setDayData (fun prev =>
    DayData.mk (DayData.date prev) (DayData.commitments prev)
      (DayData.focusScore prev) (DayData.reflection prev)
      (DayData.morningQuestion prev) (DayData.completed prev)
      (DayData.focusTime prev + focusTimeMinutes) (now clk)) s in
  setFocusMode (fun _ => FocusMode.mk false None 0) s.

Definition handleSubmitMorningQuestion (answer : jsstring) (clk : Clock) (s : Store)
  : Store :=
  let s := setDayData (fun prev =>
    DayData.mk (DayData.date prev) (DayData.commitments prev)
      (DayData.focusScore prev) (DayData.reflection prev)
      answer (DayData.completed prev)
      (DayData.focusTime prev) (now clk)) s in
  setUi (fun prev =>
    mkUi false (showReflectionModal prev) (showUpgradeModal prev) (isDragging prev)) s.

Definition handleSubmitReflection (reflection : jsstring) (clk : Clock) (s : Store)
  : Store :=
  let s := setDayData (fun prev =>
    DayData.mk (DayData.date prev) (DayData.commitments prev)
      (DayData.focusScore prev) reflection
      (DayData.morningQuestion prev) true
      (DayData.focusTime prev) (now clk)) s in
  setUi (fun prev =>
    mkUi (showMorningModal prev) false (showUpgradeModal prev) (isDragging prev)) s.

Definition handleDailyReset (clk : Clock) (s : Store) : Store :=
  let s := setDayData (fun _ =>
    DayData.mk (isoDay clk) [] 0 [] [] false 0 (now clk)) s in
  let s := setUi (fun _ => mkUi true false false false) s in
  setFocusMode (fun _ => FocusMode.mk false None 0) s.

Definition toggleTheme (s : Store) : Store :=
  setSettings (fun prev =>
    mkUserSettings (match theme prev with dark => light | light => dark end)
                   (isPro prev) (dailyResetTime prev)) s.

(** ** The components that call the handlers *)

Module CommitmentCard.

(** The two [useState] cells of a card. *)
Record Local := mkLocal { isEditing : bool; text : jsstring }.

(** [useState(!commitment.text)] and [useState(commitment.text)]. *)
Definition mount (commitment : Commitment.t) : Local :=
  mkLocal (negb (JS.truthy (Commitment.text commitment)))
          (Commitment.text commitment).

(** [onClick={() => !commitment.locked && setIsEditing(true)}] on the
    displayed text. *)
Definition clickText (commitment : Commitment.t) (l : Local) : Local :=
  if negb (Commitment.locked commitment) then mkLocal true (text l) else l.

(** [handleSave], with [onUpdate={handleUpdateCommitment}]. *)
Definition handleSave (commitment : Commitment.t) (clk : Clock)
           (ls : Local * Store) : Local * Store :=
  let (l, s) := ls in
  if JS.truthy (JS.trim (text l)) then
    (mkLocal false (text l),
     handleUpdateCommitment (Commitment.id commitment) (text l) clk s)
  else ls.

(** The completed indicator: [onToggleComplete(commitment.id)]. *)
Definition clickComplete (commitment : Commitment.t) (clk : Clock) (s : Store)
  : Store :=
  handleToggleComplete (Commitment.id commitment) clk s.

(** The Focus button: [disabled={commitment.completed || commitment.locked}],
    a disabled button dispatches no click. *)
Definition clickFocus (commitment : Commitment.t) (clk : Clock) (s : Store)
  : Store :=
  if Commitment.completed commitment || Commitment.locked commitment then s
  else handleStartFocusMode (Commitment.id commitment) clk s.

(** The delete button, rendered under [!commitment.locked] only. *)
Definition clickDelete (commitment : Commitment.t) (clk : Clock) (s : Store)
  : Store :=
  if negb (Commitment.locked commitment) then
    handleDeleteCommitment (Commitment.id commitment) clk s
  else s.

End CommitmentCard.

Module MorningModal.
(** [handleSubmit], with [onSubmit={handleSubmitMorningQuestion}]. *)
Definition handleSubmit (answer : jsstring) (clk : Clock) (s : Store) : Store :=
  if JS.truthy (JS.trim answer) then
    handleSubmitMorningQuestion (JS.trim answer) clk s
  else s.
End MorningModal.

Module ReflectionModal.
(** [handleSubmit], with [onSubmit={handleSubmitReflection}]. *)
Definition handleSubmit (reflection : jsstring) (clk : Clock) (s : Store) : Store :=
  if JS.truthy (JS.trim reflection) then
    handleSubmitReflection (JS.trim reflection) clk s
  else s.
End ReflectionModal.

(** ** The operations of the day state, as one step function *)

(** Every write to an atom that [DailyFocusOS] makes: its handlers, its two
    effects and the inline [setUi] callbacks of its buttons. *)
Inductive Op :=
| AddTask (clk : Clock)
| UpdateTask (id text : jsstring) (clk : Clock)
| DeleteTask (id : jsstring) (clk : Clock)
| ToggleComplete (id : jsstring) (clk : Clock)
| StartSession (taskId : jsstring) (clk : Clock)
| Tick
| StopSession (clk : Clock)
| SubmitMorningQuestion (answer : jsstring) (clk : Clock)
| SubmitReflection (text : jsstring) (clk : Clock)
| ResetDay (clk : Clock)
| InitializeDay (clk : Clock)
| ToggleTheme
| ShowReflectionModal
| ShowUpgradeModal (b : bool).

Definition step (op : Op) (s : Store) : Store :=
  match op with
  | AddTask clk => handleAddCommitment clk s
  | UpdateTask id text clk => handleUpdateCommitment id text clk s
  | DeleteTask id clk => handleDeleteCommitment id clk s
  | ToggleComplete id clk => handleToggleComplete id clk s
  | StartSession taskId clk => handleStartFocusMode taskId clk s
  | Tick => tick s
  | StopSession clk => handleStopFocusMode clk s
  | SubmitMorningQuestion answer clk => MorningModal.handleSubmit answer clk s
  | SubmitReflection text clk => ReflectionModal.handleSubmit text clk s
  | ResetDay clk => handleDailyReset clk s
  | InitializeDay clk => initializeDay clk s
  | ToggleTheme => toggleTheme s
  | ShowReflectionModal =>
      setUi (fun prev =>
        mkUi (showMorningModal prev) true (showUpgradeModal prev) (isDragging prev)) s
  | ShowUpgradeModal b =>
      setUi (fun prev =>
        mkUi (showMorningModal prev) (showReflectionModal prev) b (isDragging prev)) s
  end.

(** [n] calls of [handleAddCommitment], one per clock reading. *)
Definition addMany (clks : list Clock) (s : Store) : Store :=
  fold_left (fun acc clk => handleAddCommitment clk acc) clks s.

(** ** The mobile variant of the component (second source file)

    Its [Task] and [DayData] are [Commitment] and [DayData] with the field
    [commitments] named [tasks]; the settings carry [isFirstTime] and the
    UI atom three more fields.  Its handlers are those above up to that
    renaming, except [handleAddTask]. *)

Module Variant.

Record UserSettings := mkUserSettings {
  theme : Theme;
  isPro : bool;
  dailyResetTime : Z;
  isFirstTime : bool
}.

Inductive Tab := today | focus | progress | more.

Record Ui := mkUi {
  showMorningModal : bool;
  showReflectionModal : bool;
  showUpgradeModal : bool;
  showFeedbackModal : bool;
  isDragging : bool;
  currentPlaceholder : Z;
  mobileActiveTab : Tab
}.

Record Store := mkStore {
  dayData : DayData.t;
  settings : UserSettings;
  focusMode : FocusMode.t;
  ui : Ui
}.

Definition tasksCountSelector := commitmentsCountSelector.

Definition handleAddTask (clk : Clock) (s : Store) : Store :=
  let tasksCount := tasksCountSelector (dayData s) in
  if (total tasksCount >=? 3) && negb (isPro (settings s)) then
    mkStore (dayData s) (settings s) (focusMode s)
      (let prev := ui s in
       mkUi (showMorningModal prev) (showReflectionModal prev) true
            (showFeedbackModal prev) (isDragging prev)
            (currentPlaceholder prev) (mobileActiveTab prev))
  else if total tasksCount >=? 4 then s
  else
    (* Mark user as not first-time after they add first task *)
    let settings' :=
      if isFirstTime (settings s) then
        let prev := settings s in
        mkUserSettings (theme prev) (isPro prev) (dailyResetTime prev) false
      else settings s in
    let newTask :=
      Commitment.mk (JS.toString (now clk)) [] false None (now clk) false None in
    mkStore
      (let prev := dayData s in
       withCommitments prev (DayData.commitments prev ++ [newTask]) clk)
      settings' (focusMode s) (ui s).

Definition addMany (clks : list Clock) (s : Store) : Store :=
  fold_left (fun acc clk => handleAddTask clk acc) clks s.

Definition count (s : Store) : Z := total (tasksCountSelector (dayData s)).

End Variant.

(** ** The score, term by term

    The four additive terms as the specification words them, to be
    compared with [focusScoreSelector]. *)

Definition termAllCompleted (day : DayData.t) : Z :=
  match DayData.commitments day with
  | [] => 0
  | _ :: _ => if forallb Commitment.completed (DayData.commitments day) then 40 else 0
  end.

Definition termFocusUsed (day : DayData.t) : Z :=
  if 0 <? DayData.focusTime day then 20 else 0.

Definition termReflection (day : DayData.t) : Z :=
  if JS.length (JS.trim (DayData.reflection day)) =? 0 then 0 else 20.

Definition termLocked (day : DayData.t) : Z :=
  if existsb Commitment.locked (DayData.commitments day) then 20 else 0.

Definition scoreSum (day : DayData.t) : Z :=
  termAllCompleted day + termFocusUsed day + termReflection day + termLocked day.

(** ** Task count and sample stores *)

Definition count (s : Store) : Z := total (commitmentsCountSelector (dayData s)).

Definition cap (pro : bool) : Z := if pro then 4 else 3.

Definition sameAsideFromTimestamps (a b : Store) : Prop :=
  DayData.commitments (dayData a) = DayData.commitments (dayData b)
  /\ DayData.focusScore (dayData a) = DayData.focusScore (dayData b)
  /\ DayData.reflection (dayData a) = DayData.reflection (dayData b)
  /\ DayData.morningQuestion (dayData a) = DayData.morningQuestion (dayData b)
  /\ DayData.completed (dayData a) = DayData.completed (dayData b)
  /\ DayData.focusTime (dayData a) = DayData.focusTime (dayData b)
  /\ settings a = settings b
  /\ focusMode a = focusMode b
  /\ ui a = ui b.

(** The precondition of [StartSession]: the task exists and is not
    completed. *)
Definition startable (taskId : jsstring) (s : Store) : bool :=
  existsb (fun c => JS.eqb (Commitment.id c) taskId && negb (Commitment.completed c))
          (DayData.commitments (dayData s)).

(** What [handleStartFocusMode] and [handleToggleComplete] do to one
    commitment. *)
Definition lockOf (c : Commitment.t) : Commitment.t :=
  Commitment.mk (Commitment.id c) (Commitment.text c) (Commitment.completed c)
    (Commitment.timeSlot c) (Commitment.createdAt c) true (Commitment.lastUpdated c).

Definition toggleOf (id : jsstring) (c : Commitment.t) : Commitment.t :=
  if JS.eqb (Commitment.id c) id then
    Commitment.mk (Commitment.id c) (Commitment.text c)
      (negb (Commitment.completed c)) (Commitment.timeSlot c)
      (Commitment.createdAt c) (Commitment.locked c) (Commitment.lastUpdated c)
  else c.

Module Sample.

Definition clk1 : Clock := mkClock 1700000000000 (JS.lit "2023-11-14").
Definition clk2 : Clock := mkClock 1700000060000 (JS.lit "2023-11-14").
Definition clk3 : Clock := mkClock 1700086400000 (JS.lit "2023-11-15").

Definition task (id text : string) (completed locked : bool) : Commitment.t :=
  Commitment.mk (JS.lit id) (JS.lit text) completed None (now clk1) locked None.

Definition storeOf (cs : list Commitment.t) (fm : FocusMode.t) : Store :=
  mkStore (DayData.mk (JS.lit "2023-11-14") cs 0 [] [] false 0 (now clk1))
          userSettingsState_default fm uiState_default.

(** One locked commitment, no session. *)
Definition lockedOne : Store :=
  storeOf [task "1" "Write documentation" false true] focusModeState_default.

(** One completed, unlocked commitment, no session. *)
Definition completedOne : Store :=
  storeOf [task "1" "Write documentation" true false] focusModeState_default.

(** Two open commitments, no session. *)
Definition twoOpen : Store :=
  storeOf [task "1" "Complete project planning" false false;
           task "2" "Write documentation" false false] focusModeState_default.

(** A session on commitment 1 with five minutes left. *)
Definition running300 : Store :=
  storeOf [task "1" "Complete project planning" false true;
           task "2" "Write documentation" false true]
          (FocusMode.mk true (Some (JS.lit "1")) 300).

Definition variantStore (pro : bool) (cs : list Commitment.t) : Variant.Store :=
  Variant.mkStore
    (DayData.mk (JS.lit "2023-11-14") cs 0 [] [] false 0 (now clk1))
    (Variant.mkUserSettings dark pro 6 true)
    focusModeState_default
    (Variant.mkUi true false false false false 0 Variant.today).

End Sample.

(** ** Runs of operations *)

Definition run (ops : list Op) (s : Store) : Store :=
  fold_left (fun acc op => step op acc) ops s.


(** What every reachable store satisfies about the focus session. *)
Definition sessionInv (s : Store) : Prop :=
  0 <= FocusMode.timer (focusMode s) <= 1500
  /\ (FocusMode.isActive (focusMode s) = false ->
      FocusMode.currentCommitmentId (focusMode s) = None
      /\ FocusMode.timer (focusMode s) = 0)
  /\ 0 <= DayData.focusTime (dayData s).

Definition ids (s : Store) : list jsstring :=
  map Commitment.id (DayData.commitments (dayData s)).

(** ** The "Focus Actions" column of [DailyFocusOS] *)

Module FocusActions.
(** One button per commitment: [onClick={() => handleStartFocusMode(commitment.id)}]
    with [disabled={commitment.completed}]. *)
Definition click (commitment : Commitment.t) (clk : Clock) (s : Store) : Store :=
  if Commitment.completed commitment then s
  else handleStartFocusMode (Commitment.id commitment) clk s.
End FocusActions.

(** ** Utility functions *)

(** [String.prototype.padStart]. *)
Definition padStart (targetLength : nat) (padString s : jsstring) : jsstring :=
  let fillLen := (targetLength - List.length s)%nat in
  match padString with
  | [] => s
  | _ :: _ => firstn fillLen (List.concat (repeat padString fillLen)) ++ s
  end.

(** [formatTime]: [Math.floor(seconds / 60)] is [Z.div] and the remainder
    operator [%] takes the sign of the dividend, as [Z.rem].  The source
    computes on doubles: this definition is the code on the integers of
    magnitude below [2^53], where the quotient floors exactly and a number
    prints as its decimal digits. *)
Definition formatTime (seconds : Z) : jsstring :=
  let mins := seconds / 60 in
  let secs := Z.rem seconds 60 in
  JS.toString mins ++ JS.lit ":" ++ padStart 2 (JS.lit "0") (JS.toString secs).

Module ColorTheme.
Record t := mk {
  bg : jsstring;
  surface : jsstring;
  text : jsstring;
  muted : jsstring;
  accent : jsstring;
  accentSoft : jsstring;
  success : jsstring;
  warning : jsstring;
  border : jsstring
}.
End ColorTheme.

Definition colorThemes (th : Theme) : ColorTheme.t :=
  match th with
  | dark =>
      ColorTheme.mk (JS.lit "#111418") (JS.lit "#181C22") (JS.lit "#E8E6E3")
        (JS.lit "#A1A1AA") (JS.lit "#4F8CFF") (JS.lit "rgba(79, 140, 255, 0.1)")
        (JS.lit "#6BBF9C") (JS.lit "#E0B15A") (JS.lit "rgba(255, 255, 255, 0.04)")
  | light =>
      ColorTheme.mk (JS.lit "#FAFAF9") (JS.lit "#FFFFFF") (JS.lit "#1C1E21")
        (JS.lit "#6B7280") (JS.lit "#4F8CFF") (JS.lit "rgba(79, 140, 255, 0.08)")
        (JS.lit "#4FA58A") (JS.lit "#C99A3A") (JS.lit "rgba(0, 0, 0, 0.06)")
  end.

(** Contribution graph colors *)
Definition getGraphColor (score : Z) (theme : ColorTheme.t) : jsstring :=
  if score =? 0 then ColorTheme.border theme
  else if score <=? 25 then ColorTheme.accentSoft theme
  else if score <=? 50 then ColorTheme.accent theme
  else if score <=? 75 then ColorTheme.success theme
  else JS.lit "#52C881".

(** ** The placeholder rotation of the variant *)

Definition placeholders : list jsstring :=
  [ JS.lit "Finish my pending work";
    JS.lit "Study for 1 hour";
    JS.lit "Go for a walk";
    JS.lit "Call a family member";
    JS.lit "Read 20 pages";
    JS.lit "Cook a healthy meal" ].

(** The callback of the three-second interval:
    [currentPlaceholder: (prev.currentPlaceholder + 1) % placeholders.length]. *)
Definition rotatePlaceholder (prev : Variant.Ui) : Variant.Ui :=
  Variant.mkUi (Variant.showMorningModal prev) (Variant.showReflectionModal prev)
    (Variant.showUpgradeModal prev) (Variant.showFeedbackModal prev)
    (Variant.isDragging prev)
    (Z.rem (Variant.currentPlaceholder prev + 1) (Z.of_nat (List.length placeholders)))
    (Variant.mobileActiveTab prev).

(** [placeholders[ui.currentPlaceholder]]: [undefined] outside the array. *)
Definition currentPlaceholderText (u : Variant.Ui) : option jsstring :=
  if Variant.currentPlaceholder u <? 0 then None
  else nth_error placeholders (Z.to_nat (Variant.currentPlaceholder u)).

(** ** Lists and counts *)

Section Counting.
Context {A : Type} (f : A -> bool).

Lemma filter_length_bound (l : list A) :
  (List.length (filter f l) <= List.length l)%nat.
Proof.
  induction l as [|a l IH]; simpl; [lia|].
  destruct (f a); simpl; lia.
Qed.

Lemma filter_length_all (l : list A) :
  List.length (filter f l) = List.length l <-> forallb f l = true.
Proof.
  induction l as [|a l IH]; simpl.
  - split; reflexivity.
  - pose proof (filter_length_bound l) as Hle.
    destruct (f a) eqn:Hfa; simpl.
    + rewrite <- IH. split; intro H; lia.
    + split; [lia | discriminate].
Qed.
End Counting.

Lemma completed_count_all (cs : list Commitment.t) :
  (Z.of_nat (List.length (filter Commitment.completed cs))
   =? Z.of_nat (List.length cs)) = forallb Commitment.completed cs.
Proof.
  destruct (forallb Commitment.completed cs) eqn:Hall.
  - apply Z.eqb_eq. apply (filter_length_all Commitment.completed) in Hall. lia.
  - apply Z.eqb_neq. intro Heq.
    assert (forallb Commitment.completed cs = true) as Habs
      by (apply filter_length_all; lia).
    congruence.
Qed.

Lemma termAllCompleted_count (day : DayData.t) :
  (if (completedCount (commitmentsCountSelector day)
       =? total (commitmentsCountSelector day))
      && (total (commitmentsCountSelector day) >? 0)
   then 40 else 0) = termAllCompleted day.
Proof.
  unfold termAllCompleted, commitmentsCountSelector; simpl.
  rewrite completed_count_all.
  destruct (DayData.commitments day) as [|c cs] eqn:Hcs.
  - reflexivity.
  - assert ((Z.of_nat (List.length (c :: cs)) >? 0) = true) as ->
      by (apply Z.gtb_lt; simpl List.length; lia).
    rewrite andb_true_r. reflexivity.
Qed.

(** ** Score selector *)

Lemma focusScoreSelector_sum (day : DayData.t) :
  focusScoreSelector day = Z.min (scoreSum day) 100.
Proof.
  unfold focusScoreSelector, scoreSum.
  cbv zeta.
  rewrite <- (termAllCompleted_count day).
  unfold termFocusUsed, termReflection, termLocked.
  rewrite andb_true_r, !Z.gtb_ltb.
  assert (0 <= JS.length (JS.trim (DayData.reflection day))) as Hlen
    by (unfold JS.length; lia).
  destruct (_ && _), (0 <? DayData.focusTime day),
    (existsb Commitment.locked (DayData.commitments day));
    destruct (Z.ltb_spec 0 (JS.length (JS.trim (DayData.reflection day))));
    destruct (Z.eqb_spec (JS.length (JS.trim (DayData.reflection day))) 0);
    try lia; reflexivity.
Qed.

Lemma scoreSum_range (day : DayData.t) : 0 <= scoreSum day <= 100.
Proof.
  unfold scoreSum, termAllCompleted, termFocusUsed, termReflection, termLocked.
  destruct (DayData.commitments day) as [|c cs];
    repeat match goal with |- context [if ?b then _ else _] => destruct b end;
    lia.
Qed.

(** C2. The score selector returns [min(sum, 100)], an integer of
    [0..100], where [sum] adds 40 when the list is non-empty and every
    commitment is completed, 20 when [focusTime > 0], 20 when the trimmed
    reflection has non-zero length and 20 when some commitment is locked
    ([hasEditsAfterLock] being the constant [false]).  With an empty list
    the 40 is not awarded whatever the other fields are, and with no
    commitments, [focusTime = 15] and reflection ["done"] the score is 40. *)
Theorem C2_focus_score (day : DayData.t) :
  focusScoreSelector day = Z.min (scoreSum day) 100
  /\ 0 <= focusScoreSelector day <= 100
  /\ (forall date fs r mq c ft lu,
        let empty := DayData.mk date [] fs r mq c ft lu in
        termAllCompleted empty = 0
        /\ focusScoreSelector empty
           = termFocusUsed empty + termReflection empty)
  /\ (forall date fs mq c lu,
        focusScoreSelector (DayData.mk date [] fs (JS.lit "done") mq c 15 lu) = 40).
Proof.
  pose proof (scoreSum_range day) as Hr.
  rewrite focusScoreSelector_sum.
  split; [reflexivity|]. split; [lia|]. split.
  - intros date fs r mq c ft lu empty.
    split; [reflexivity|].
    rewrite focusScoreSelector_sum.
    pose proof (scoreSum_range empty) as He.
    unfold scoreSum in *. unfold termAllCompleted, termLocked in *. simpl in *.
    lia.
  - reflexivity.
Qed.

(** ** The task cap *)

Lemma geb_true (a b : Z) : b <= a -> (a >=? b) = true.
Proof. intro H. apply Z.geb_le. lia. Qed.

Lemma geb_false (a b : Z) : a < b -> (a >=? b) = false.
Proof. intro H. rewrite Z.geb_leb. apply Z.leb_gt. lia. Qed.

Lemma count_nonneg (s : Store) : 0 <= count s.
Proof. unfold count, commitmentsCountSelector; simpl. lia. Qed.

Lemma handleAddCommitment_refused (clk : Clock) (s : Store) :
  (3 <= count s /\ isPro (settings s) = false) \/ 4 <= count s ->
  dayData (handleAddCommitment clk s) = dayData s
  /\ settings (handleAddCommitment clk s) = settings s
  /\ focusMode (handleAddCommitment clk s) = focusMode s.
Proof.
  unfold count, handleAddCommitment. cbv zeta.
  intros [[H3 Hpro] | H4].
  - rewrite Hpro.
    rewrite (geb_true _ 3) by lia.
    simpl. auto.
  - rewrite (geb_true _ 3) by lia.
    rewrite (geb_true _ 4) by lia.
    destruct (isPro (settings s)); simpl; auto.
Qed.

Lemma handleAddCommitment_upgrade (clk : Clock) (s : Store) :
  3 <= count s -> isPro (settings s) = false ->
  showUpgradeModal (ui (handleAddCommitment clk s)) = true.
Proof.
  unfold count, handleAddCommitment. cbv zeta. intros H3 Hpro.
  rewrite Hpro.
  rewrite (geb_true _ 3) by lia.
  reflexivity.
Qed.

Lemma handleAddCommitment_accepted (clk : Clock) (s : Store) :
  count s < 3 \/ (isPro (settings s) = true /\ count s < 4) ->
  handleAddCommitment clk s
  = setDayData (fun prev =>
      withCommitments prev
        (DayData.commitments prev
         ++ [Commitment.mk (JS.toString (now clk)) [] false None (now clk) false None])
        clk) s.
Proof.
  unfold count, handleAddCommitment. cbv zeta. intros H.
  destruct H as [H | [Hpro H]].
  - rewrite (geb_false _ 3) by lia.
    rewrite (geb_false _ 4) by lia.
    reflexivity.
  - rewrite Hpro, andb_false_r.
    rewrite (geb_false _ 4) by lia.
    reflexivity.
Qed.

Lemma count_setDayData_app (s : Store) (c : Commitment.t) (clk : Clock) :
  count (setDayData (fun prev =>
           withCommitments prev (DayData.commitments prev ++ [c]) clk) s)
  = count s + 1.
Proof.
  unfold count, commitmentsCountSelector; simpl.
  rewrite length_app; simpl. lia.
Qed.

Lemma handleAddCommitment_cap (clk : Clock) (s : Store) :
  count s <= cap (isPro (settings s)) ->
  count (handleAddCommitment clk s) <= cap (isPro (settings s))
  /\ isPro (settings (handleAddCommitment clk s)) = isPro (settings s).
Proof.
  intros Hc.
  destruct (Z.lt_ge_cases (count s) (cap (isPro (settings s)))) as [Hlt | Hge].
  - rewrite handleAddCommitment_accepted.
    + rewrite count_setDayData_app. simpl. split; [lia | reflexivity].
    + unfold cap in Hlt. destruct (isPro (settings s)); [right; split; [reflexivity|lia] | left; lia].
  - destruct (handleAddCommitment_refused clk s) as (Hd & Hs & _).
    + unfold cap in Hge. destruct (isPro (settings s)); [right; lia | left; split; [lia|reflexivity]].
    + unfold count in *. rewrite Hd, Hs. split; [lia | reflexivity].
Qed.

Lemma addMany_cap (clks : list Clock) :
  forall s, count s <= cap (isPro (settings s)) ->
  count (addMany clks s) <= cap (isPro (settings s)).
Proof.
  unfold addMany.
  induction clks as [|clk clks IH]; intros s Hc; simpl; [exact Hc|].
  destruct (handleAddCommitment_cap clk s Hc) as [Hc' Hpro].
  rewrite <- Hpro. apply IH. rewrite Hpro. exact Hc'.
Qed.

Lemma variant_handleAddTask_refused (clk : Clock) (s : Variant.Store) :
  (3 <= Variant.count s /\ Variant.isPro (Variant.settings s) = false)
  \/ 4 <= Variant.count s ->
  Variant.dayData (Variant.handleAddTask clk s) = Variant.dayData s
  /\ Variant.settings (Variant.handleAddTask clk s) = Variant.settings s
  /\ Variant.focusMode (Variant.handleAddTask clk s) = Variant.focusMode s.
Proof.
  unfold Variant.count, Variant.handleAddTask. cbv zeta.
  intros [[H3 Hpro] | H4].
  - rewrite Hpro, (geb_true _ 3) by lia. simpl. auto.
  - rewrite (geb_true _ 3), (geb_true _ 4) by lia.
    destruct (Variant.isPro (Variant.settings s)); simpl; auto.
Qed.

Lemma variant_handleAddTask_upgrade (clk : Clock) (s : Variant.Store) :
  3 <= Variant.count s -> Variant.isPro (Variant.settings s) = false ->
  Variant.showUpgradeModal (Variant.ui (Variant.handleAddTask clk s)) = true.
Proof.
  unfold Variant.count, Variant.handleAddTask. cbv zeta. intros H3 Hpro.
  rewrite Hpro, (geb_true _ 3) by lia. reflexivity.
Qed.

Lemma variant_handleAddTask_cap (clk : Clock) (s : Variant.Store) :
  Variant.count s <= cap (Variant.isPro (Variant.settings s)) ->
  Variant.count (Variant.handleAddTask clk s)
  <= cap (Variant.isPro (Variant.settings s))
  /\ Variant.isPro (Variant.settings (Variant.handleAddTask clk s))
     = Variant.isPro (Variant.settings s).
Proof.
  intros Hc.
  destruct (Z.lt_ge_cases (Variant.count s)
              (cap (Variant.isPro (Variant.settings s)))) as [Hlt | Hge].
  - unfold Variant.count, Variant.handleAddTask in *. cbv zeta.
    destruct (Variant.isPro (Variant.settings s)) eqn:Hpro; simpl cap in *.
    + rewrite andb_false_r, (geb_false _ 4) by lia.
      unfold Variant.tasksCountSelector, commitmentsCountSelector in *; simpl in *.
      rewrite length_app; simpl.
      destruct (Variant.isFirstTime (Variant.settings s)); simpl; split; (lia || assumption || reflexivity).
    + rewrite (geb_false _ 3), (geb_false _ 4) by lia.
      unfold Variant.tasksCountSelector, commitmentsCountSelector in *; simpl in *.
      rewrite length_app; simpl.
      destruct (Variant.isFirstTime (Variant.settings s)); simpl; split; (lia || assumption || reflexivity).
  - destruct (variant_handleAddTask_refused clk s) as (Hd & Hs & _).
    + unfold cap in Hge.
      destruct (Variant.isPro (Variant.settings s));
        [right; lia | left; split; [lia|reflexivity]].
    + unfold Variant.count in *. rewrite Hd, Hs. split; [lia | reflexivity].
Qed.

Lemma variant_addMany_cap (clks : list Clock) :
  forall s, Variant.count s <= cap (Variant.isPro (Variant.settings s)) ->
  Variant.count (Variant.addMany clks s)
  <= cap (Variant.isPro (Variant.settings s)).
Proof.
  unfold Variant.addMany.
  induction clks as [|clk clks IH]; intros s Hc; simpl; [exact Hc|].
  destruct (variant_handleAddTask_cap clk s Hc) as [Hc' Hpro].
  rewrite <- Hpro. apply IH. rewrite Hpro. exact Hc'.
Qed.

(** C3. Starting from at most three commitments, no sequence of AddTask
    calls takes the count above 3 on a non-privileged account or above 4
    on a privileged one, in [handleAddCommitment] and in the variant's
    [handleAddTask] alike.  A refused call (count >= 3 and not privileged,
    or count >= 4) leaves the day data as it was, and the non-privileged
    refusal sets [showUpgradeModal]. *)
Theorem C3_task_cap
    (clks : list Clock) (s : Store) (v : Variant.Store)
    (clk : Clock) (r : Store) (w : Variant.Store) :
  count s <= 3 ->
  Variant.count v <= 3 ->
  count (addMany clks s) <= (if isPro (settings s) then 4 else 3)
  /\ Variant.count (Variant.addMany clks v)
     <= (if Variant.isPro (Variant.settings v) then 4 else 3)
  /\ ((3 <= count r /\ isPro (settings r) = false) \/ 4 <= count r ->
      dayData (handleAddCommitment clk r) = dayData r)
  /\ (3 <= count r -> isPro (settings r) = false ->
      showUpgradeModal (ui (handleAddCommitment clk r)) = true)
  /\ ((3 <= Variant.count w /\ Variant.isPro (Variant.settings w) = false)
      \/ 4 <= Variant.count w ->
      Variant.dayData (Variant.handleAddTask clk w) = Variant.dayData w)
  /\ (3 <= Variant.count w -> Variant.isPro (Variant.settings w) = false ->
      Variant.showUpgradeModal (Variant.ui (Variant.handleAddTask clk w)) = true).
Proof.
  intros Hs Hv.
  split; [|split; [|split; [|split; [|split]]]].
  - apply (addMany_cap clks s). unfold cap. destruct (isPro (settings s)); lia.
  - apply (variant_addMany_cap clks v). unfold cap.
    destruct (Variant.isPro (Variant.settings v)); lia.
  - intro H. apply (handleAddCommitment_refused clk r H).
  - apply handleAddCommitment_upgrade.
  - intro H. apply (variant_handleAddTask_refused clk w H).
  - apply variant_handleAddTask_upgrade.
Qed.

Lemma C3_task_cap_witness :
  count Sample.twoOpen <= 3
  /\ Variant.count (Sample.variantStore true (DayData.commitments (dayData Sample.twoOpen))) <= 3
  /\ count (addMany [Sample.clk1; Sample.clk2; Sample.clk3] Sample.twoOpen) <= 3
  /\ Variant.count
       (Variant.addMany [Sample.clk1; Sample.clk2; Sample.clk3]
          (Sample.variantStore true (DayData.commitments (dayData Sample.twoOpen))))
     <= 4.
Proof.
  assert (count Sample.twoOpen <= 3) as H1 by (vm_compute; discriminate).
  assert (Variant.count
            (Sample.variantStore true (DayData.commitments (dayData Sample.twoOpen)))
          <= 3) as H2 by (vm_compute; discriminate).
  split; [exact H1|]. split; [exact H2|].
  pose proof (C3_task_cap [Sample.clk1; Sample.clk2; Sample.clk3] Sample.twoOpen
                (Sample.variantStore true (DayData.commitments (dayData Sample.twoOpen)))
                Sample.clk1 Sample.lockedOne
                (Sample.variantStore false []) H1 H2) as H.
  split; [exact (proj1 H) | exact (proj1 (proj2 H))].
Defined.

(** ** Starting and stopping a focus session *)

Lemma handleStartFocusMode_commitments (taskId : jsstring) (clk : Clock) (s : Store) :
  DayData.commitments (dayData (handleStartFocusMode taskId clk s))
  = map lockOf (DayData.commitments (dayData s)).
Proof. reflexivity. Qed.

Lemma forallb_locked_map_lockOf (cs : list Commitment.t) :
  forallb Commitment.locked (map lockOf cs) = true.
Proof. induction cs as [|c cs IH]; simpl; [reflexivity | exact IH]. Qed.

Lemma map_proj_lockOf {B : Type} (p : Commitment.t -> B) (cs : list Commitment.t) :
  (forall c, p (lockOf c) = p c) -> map p (map lockOf cs) = map p cs.
Proof.
  intro Hp. rewrite map_map. apply map_ext. exact Hp.
Qed.

(** C4. When the task exists and is not completed, StartSession sets
    [locked] on every commitment of the list, the list keeping its
    commitments in place with their other fields, and sets
    [currentCommitmentId] to the task, [timer] to 1500 and [isActive]. *)
Theorem C4_start_session (s : Store) (taskId : jsstring) (clk : Clock) :
  startable taskId s = true ->
  let s' := handleStartFocusMode taskId clk s in
  (forall c, In c (DayData.commitments (dayData s')) -> Commitment.locked c = true)
  /\ map Commitment.id (DayData.commitments (dayData s'))
     = map Commitment.id (DayData.commitments (dayData s))
  /\ map Commitment.text (DayData.commitments (dayData s'))
     = map Commitment.text (DayData.commitments (dayData s))
  /\ map Commitment.completed (DayData.commitments (dayData s'))
     = map Commitment.completed (DayData.commitments (dayData s))
  /\ FocusMode.currentCommitmentId (focusMode s') = Some taskId
  /\ FocusMode.timer (focusMode s') = 1500
  /\ FocusMode.isActive (focusMode s') = true.
Proof.
  intros _ s'. subst s'.
  rewrite handleStartFocusMode_commitments.
  split; [|split; [|split; [|split; [|split; [|split]]]]];
    try reflexivity; try (apply map_proj_lockOf; reflexivity).
  intros c Hin.
  pose proof (forallb_locked_map_lockOf (DayData.commitments (dayData s))) as Hall.
  rewrite forallb_forall in Hall. apply Hall, Hin.
Qed.

Lemma C4_start_session_witness :
  startable (JS.lit "2") Sample.twoOpen = true
  /\ map Commitment.locked
       (DayData.commitments
          (dayData (handleStartFocusMode (JS.lit "2") Sample.clk2 Sample.twoOpen)))
     = [true; true]
  /\ FocusMode.timer
       (focusMode (handleStartFocusMode (JS.lit "2") Sample.clk2 Sample.twoOpen))
     = 1500.
Proof.
  assert (startable (JS.lit "2") Sample.twoOpen = true) as Hpre by reflexivity.
  split; [exact Hpre|].
  pose proof (C4_start_session Sample.twoOpen (JS.lit "2") Sample.clk2 Hpre) as H.
  split; [reflexivity | exact (proj1 (proj2 (proj2 (proj2 (proj2 (proj2 H))))))].
Defined.

(** C5, as claimed, fails: [handleStartFocusMode] has no precondition
    check.  Called on a completed commitment it locks the list and starts
    the session. *)
Lemma C5_counterexample :
  startable (JS.lit "1") Sample.completedOne = false
  /\ map Commitment.locked
       (DayData.commitments
          (dayData (handleStartFocusMode (JS.lit "1") Sample.clk2 Sample.completedOne)))
     <> map Commitment.locked (DayData.commitments (dayData Sample.completedOne))
  /\ focusMode (handleStartFocusMode (JS.lit "1") Sample.clk2 Sample.completedOne)
     <> focusMode Sample.completedOne.
Proof.
  split; [reflexivity|]. split; vm_compute; discriminate.
Qed.

(** C5, amended. The refusal is the presentation layer's: the Focus button
    of [CommitmentCard] is disabled on a completed (or locked) commitment,
    so its click leaves the whole store as it was.  [handleStartFocusMode]
    itself applies to any id, present or not, completed or not: it locks
    every commitment and sets the session to that id with 1500 seconds. *)
Theorem C5_start_refused_by_card (c : Commitment.t) (clk : Clock) (s : Store)
    (taskId : jsstring) :
  Commitment.completed c = true ->
  CommitmentCard.clickFocus c clk s = s
  /\ forallb Commitment.locked
       (DayData.commitments (dayData (handleStartFocusMode taskId clk s))) = true
  /\ focusMode (handleStartFocusMode taskId clk s)
     = FocusMode.mk true (Some taskId) 1500.
Proof.
  intro Hc. unfold CommitmentCard.clickFocus. rewrite Hc. simpl.
  split; [reflexivity|]. split; [|reflexivity].
  apply forallb_locked_map_lockOf.
Qed.

Lemma C5_start_refused_by_card_witness :
  Commitment.completed (Sample.task "1" "Write documentation" true false) = true
  /\ CommitmentCard.clickFocus (Sample.task "1" "Write documentation" true false)
       Sample.clk2 Sample.completedOne
     = Sample.completedOne.
Proof.
  split; [reflexivity|].
  exact (proj1 (C5_start_refused_by_card
                  (Sample.task "1" "Write documentation" true false)
                  Sample.clk2 Sample.completedOne (JS.lit "1") eq_refl)).
Defined.

Lemma handleStopFocusMode_focusTime (clk : Clock) (s : Store) :
  DayData.focusTime (dayData (handleStopFocusMode clk s))
  = DayData.focusTime (dayData s) + (25 - FocusMode.timer (focusMode s) / 60).
Proof. reflexivity. Qed.



(** ** Editing and deleting under the lock *)

Lemma JS_eqb_eq (a b : jsstring) : JS.eqb a b = true <-> a = b.
Proof.
  revert b. induction a as [|x a IH]; intros [|y b]; simpl;
    try (split; [discriminate | discriminate]); try (split; reflexivity).
  rewrite andb_true_iff, N.eqb_eq, IH.
  split; [intros [-> ->]; reflexivity | intro H; injection H; auto].
Qed.

Lemma JS_eqb_refl (a : jsstring) : JS.eqb a a = true.
Proof. apply JS_eqb_eq. reflexivity. Qed.

(** C1, as claimed, fails: neither handler reads [locked].  On a locked
    commitment [handleUpdateCommitment] replaces the text and
    [handleDeleteCommitment] removes the commitment. *)
Lemma C1_counterexample :
  map Commitment.locked (DayData.commitments (dayData Sample.lockedOne)) = [true]
  /\ map Commitment.text
       (DayData.commitments
          (dayData (handleUpdateCommitment (JS.lit "1") (JS.lit "Edited")
                      Sample.clk2 Sample.lockedOne)))
     = [JS.lit "Edited"]
  /\ dayData (handleUpdateCommitment (JS.lit "1") (JS.lit "Edited")
                Sample.clk2 Sample.lockedOne)
     <> dayData Sample.lockedOne
  /\ DayData.commitments
       (dayData (handleDeleteCommitment (JS.lit "1") Sample.clk2 Sample.lockedOne))
     = []
  /\ dayData (handleDeleteCommitment (JS.lit "1") Sample.clk2 Sample.lockedOne)
     <> dayData Sample.lockedOne.
Proof.
  split; [reflexivity|]. split; [reflexivity|].
  split; [vm_compute; discriminate|]. split; [reflexivity|].
  vm_compute; discriminate.
Qed.

(** C1, amended. The lock is applied by [CommitmentCard], not by the
    handlers: on a locked commitment a click on the text does not open the
    editor and there is no delete button, so both leave everything as it
    was.  The handlers themselves act on a locked commitment as on any
    other: [handleUpdateCommitment] replaces its text in place (keeping it
    locked) and stamps it, [handleDeleteCommitment] leaves no commitment
    of that id, and both set the day's [lastUpdated] to the clock
    reading. *)
Theorem C1_lock_enforced_by_card
    (s : Store) (id text : jsstring) (clk : Clock)
    (n : nat) (c : Commitment.t) (l : CommitmentCard.Local) :
  nth_error (DayData.commitments (dayData s)) n = Some c ->
  Commitment.id c = id ->
  Commitment.locked c = true ->
  CommitmentCard.clickText c l = l
  /\ CommitmentCard.clickDelete c clk s = s
  /\ (exists c',
        nth_error
          (DayData.commitments (dayData (handleUpdateCommitment id text clk s))) n
        = Some c'
        /\ Commitment.id c' = id
        /\ Commitment.text c' = text
        /\ Commitment.locked c' = true
        /\ Commitment.lastUpdated c' = Some (now clk))
  /\ (forall c',
        In c' (DayData.commitments (dayData (handleDeleteCommitment id clk s))) ->
        Commitment.id c' <> id)
  /\ DayData.lastUpdated (dayData (handleUpdateCommitment id text clk s)) = now clk
  /\ DayData.lastUpdated (dayData (handleDeleteCommitment id clk s)) = now clk.
Proof.
  intros Hn Hid Hl.
  unfold CommitmentCard.clickText, CommitmentCard.clickDelete. rewrite Hl. simpl.
  split; [reflexivity|]. split; [reflexivity|].
  split; [|split; [|split; reflexivity]].
  - rewrite nth_error_map, Hn. simpl.
    rewrite Hid, JS_eqb_refl.
    eexists. split; [reflexivity|]. simpl. auto.
  - intros c' Hin. apply filter_In in Hin. destruct Hin as [_ Hne].
    intro Heq. rewrite Heq, JS_eqb_refl in Hne. discriminate.
Qed.

Lemma C1_lock_enforced_by_card_witness :
  nth_error (DayData.commitments (dayData Sample.lockedOne)) 0
  = Some (Sample.task "1" "Write documentation" false true)
  /\ CommitmentCard.clickDelete (Sample.task "1" "Write documentation" false true)
       Sample.clk2 Sample.lockedOne
     = Sample.lockedOne.
Proof.
  split; [reflexivity|].
  exact (proj1 (proj2 (C1_lock_enforced_by_card
                         Sample.lockedOne (JS.lit "1") (JS.lit "Edited") Sample.clk2 0
                         (Sample.task "1" "Write documentation" false true)
                         (CommitmentCard.mount
                            (Sample.task "1" "Write documentation" false true))
                         eq_refl eq_refl eq_refl))).
Defined.

(** A locked commitment whose text is still empty is mounted with the
    editor open ([useState(!commitment.text)]), and saving from there
    reaches [handleUpdateCommitment]. *)
Example card_mounts_editing_on_empty_text :
  let c := Sample.task "1" "" false true in
  let s := Sample.storeOf [c] focusModeState_default in
  let l := CommitmentCard.mkLocal
             (CommitmentCard.isEditing (CommitmentCard.mount c)) (JS.lit "Late") in
  CommitmentCard.isEditing (CommitmentCard.mount c) = true
  /\ map Commitment.text
       (DayData.commitments (dayData (snd (CommitmentCard.handleSave c Sample.clk2 (l, s)))))
     = [JS.lit "Late"].
Proof. split; reflexivity. Qed.

(** ** Submitting the reflection *)

Lemma truthy_length (t : jsstring) : JS.truthy t = negb (JS.length t =? 0).
Proof. destruct t; reflexivity. Qed.

Lemma step_completed (op : Op) (s : Store) :
  DayData.completed (dayData (step op s)) = true ->
  DayData.completed (dayData s) = true
  \/ exists text clk, op = SubmitReflection text clk.
Proof.
  destruct op; simpl; try (intro H; left; exact H); try discriminate.
  - unfold handleAddCommitment. cbv zeta.
    destruct (_ && _); [auto|]. destruct (_ >=? 4); auto.
  - unfold tick. destruct (_ && _); auto.
  - unfold MorningModal.handleSubmit. destruct (JS.truthy _); auto.
  - intros _. right. eauto.
  - unfold initializeDay. destruct (_ =? 0); auto.
Qed.

(** The handler by itself has no guard: it is [ReflectionModal] that
    refuses a blank text. *)
Example handleSubmitReflection_unguarded :
  DayData.completed
    (dayData (handleSubmitReflection (JS.lit "  ") Sample.clk2 Sample.twoOpen))
  = true.
Proof. reflexivity. Qed.

(** C7. Submitting a reflection ([ReflectionModal.handleSubmit] calling
    [handleSubmitReflection]) with a text that is empty after trimming is
    refused and leaves the store as it was; with any other text it stores
    the trimmed text as the reflection, sets [completed] and stamps
    [lastUpdated].  No other operation turns [completed] from false to
    true. *)
Theorem C7_submit_reflection (s : Store) (text : jsstring) (clk : Clock) :
  let s' := step (SubmitReflection text clk) s in
  (JS.length (JS.trim text) = 0 -> s' = s)
  /\ (JS.length (JS.trim text) <> 0 ->
      DayData.reflection (dayData s') = JS.trim text
      /\ DayData.completed (dayData s') = true
      /\ DayData.lastUpdated (dayData s') = now clk)
  /\ (forall op,
        DayData.completed (dayData s) = false ->
        DayData.completed (dayData (step op s)) = true ->
        exists text' clk', op = SubmitReflection text' clk').
Proof.
  simpl. unfold ReflectionModal.handleSubmit. rewrite truthy_length.
  split; [|split].
  - intros ->. reflexivity.
  - intro Hne. apply Z.eqb_neq in Hne. rewrite Hne. simpl. auto.
  - intros op Hf Ht. destruct (step_completed op s Ht) as [Habs | H]; [congruence | exact H].
Qed.

Lemma C7_submit_reflection_witness :
  JS.length (JS.trim (JS.lit "   ")) = 0
  /\ step (SubmitReflection (JS.lit "   ") Sample.clk2) Sample.twoOpen = Sample.twoOpen
  /\ JS.length (JS.trim (JS.lit " ok ")) <> 0
  /\ DayData.reflection
       (dayData (step (SubmitReflection (JS.lit " ok ") Sample.clk2) Sample.twoOpen))
     = JS.lit "ok".
Proof.
  assert (JS.length (JS.trim (JS.lit "   ")) = 0) as H0 by reflexivity.
  assert (JS.length (JS.trim (JS.lit " ok ")) <> 0) as H1
    by (vm_compute; discriminate).
  split; [exact H0|].
  split; [exact (proj1 (C7_submit_reflection Sample.twoOpen (JS.lit "   ") Sample.clk2) H0)|].
  split; [exact H1|].
  exact (proj1 (proj1 (proj2 (C7_submit_reflection Sample.twoOpen (JS.lit " ok ")
                                Sample.clk2)) H1)).
Defined.

(** ** Resetting the day *)

(** C8. Whatever the store was, ResetDay leaves no commitments, zero focus
    time, empty reflection and morning question, [completed] false and an
    idle focus session; a second reset gives the same store as the first,
    aside from the date and [lastUpdated] that each reset reads from the
    clock. *)
Theorem C8_reset_day (s : Store) (clk clk' : Clock) :
  let s' := handleDailyReset clk s in
  DayData.commitments (dayData s') = []
  /\ DayData.focusTime (dayData s') = 0
  /\ DayData.reflection (dayData s') = []
  /\ DayData.morningQuestion (dayData s') = []
  /\ DayData.completed (dayData s') = false
  /\ focusMode s' = FocusMode.mk false None 0
  /\ ui s' = uiState_default
  /\ sameAsideFromTimestamps (handleDailyReset clk' s') s'
  /\ handleDailyReset clk s' = s'.
Proof.
  unfold sameAsideFromTimestamps. simpl. repeat split; reflexivity.
Qed.

(** ** Toggling completion *)

Lemma handleToggleComplete_commitments (id : jsstring) (clk : Clock) (s : Store) :
  DayData.commitments (dayData (handleToggleComplete id clk s))
  = map (toggleOf id) (DayData.commitments (dayData s)).
Proof. reflexivity. Qed.

Lemma toggleOf_id (id : jsstring) (c : Commitment.t) :
  Commitment.id (toggleOf id c) = Commitment.id c.
Proof. unfold toggleOf. destruct (JS.eqb _ _); reflexivity. Qed.

Lemma toggleOf_involutive (id : jsstring) (c : Commitment.t) :
  toggleOf id (toggleOf id c) = c.
Proof.
  unfold toggleOf at 1. rewrite toggleOf_id.
  unfold toggleOf. destruct (JS.eqb (Commitment.id c) id) eqn:E.
  - destruct c; simpl. rewrite negb_involutive. reflexivity.
  - reflexivity.
Qed.

Lemma map_toggleOf_involutive (id : jsstring) (cs : list Commitment.t) :
  map (toggleOf id) (map (toggleOf id) cs) = cs.
Proof.
  induction cs as [|c cs IH]; simpl; [reflexivity|].
  rewrite toggleOf_involutive, IH. reflexivity.
Qed.

(** C9. For an id present in the list, one ToggleComplete negates
    [completed] on the commitment of that id and changes no other field of
    it; a second one restores the list exactly, and the two leave every
    other field of the store but [lastUpdated] as it was. *)
Theorem C9_toggle_twice (s : Store) (id : jsstring) (clk1 clk2 : Clock)
    (n : nat) (c : Commitment.t) :
  nth_error (DayData.commitments (dayData s)) n = Some c ->
  Commitment.id c = id ->
  let s1 := handleToggleComplete id clk1 s in
  let s2 := handleToggleComplete id clk2 s1 in
  (exists c1,
     nth_error (DayData.commitments (dayData s1)) n = Some c1
     /\ Commitment.completed c1 = negb (Commitment.completed c)
     /\ Commitment.id c1 = Commitment.id c
     /\ Commitment.text c1 = Commitment.text c
     /\ Commitment.timeSlot c1 = Commitment.timeSlot c
     /\ Commitment.createdAt c1 = Commitment.createdAt c
     /\ Commitment.locked c1 = Commitment.locked c
     /\ Commitment.lastUpdated c1 = Commitment.lastUpdated c)
  /\ nth_error (DayData.commitments (dayData s2)) n = Some c
  /\ DayData.commitments (dayData s2) = DayData.commitments (dayData s)
  /\ DayData.date (dayData s2) = DayData.date (dayData s)
  /\ sameAsideFromTimestamps s2 s
  /\ DayData.lastUpdated (dayData s2) = now clk2.
Proof.
  intros Hn Hid s1 s2.
  assert (DayData.commitments (dayData s2) = DayData.commitments (dayData s)) as Hcs.
  { subst s2 s1. rewrite !handleToggleComplete_commitments.
    apply map_toggleOf_involutive. }
  split; [|split; [|split; [|split; [|split]]]].
  - subst s1. rewrite handleToggleComplete_commitments, nth_error_map, Hn. simpl.
    eexists. split; [reflexivity|].
    unfold toggleOf. rewrite Hid, JS_eqb_refl. simpl. repeat split; reflexivity.
  - rewrite Hcs. exact Hn.
  - exact Hcs.
  - reflexivity.
  - unfold sameAsideFromTimestamps. rewrite Hcs. repeat split; reflexivity.
  - reflexivity.
Qed.

Lemma C9_toggle_twice_witness :
  nth_error (DayData.commitments (dayData Sample.twoOpen)) 1
  = Some (Sample.task "2" "Write documentation" false false)
  /\ DayData.commitments
       (dayData (handleToggleComplete (JS.lit "2") Sample.clk3
                   (handleToggleComplete (JS.lit "2") Sample.clk2 Sample.twoOpen)))
     = DayData.commitments (dayData Sample.twoOpen).
Proof.
  split; [reflexivity|].
  exact (proj1 (proj2 (proj2
           (C9_toggle_twice Sample.twoOpen (JS.lit "2") Sample.clk2 Sample.clk3 1
              (Sample.task "2" "Write documentation" false false)
              eq_refl eq_refl)))).
Defined.

(** ** Adding during a session *)

(** C10. An accepted AddTask appends one commitment with [locked] false and
    does not touch the focus session, whether or not a session is active.
    So after StartSession has locked every commitment, an AddTask made
    while the session runs yields a list whose earlier commitments are all
    locked and whose last one is not: "every commitment is locked" does
    not hold throughout a running session. *)
Theorem C10_added_task_unlocked (s : Store) (taskId : jsstring) (clk1 clk2 : Clock) :
  count s < 3 \/ (isPro (settings s) = true /\ count s < 4) ->
  let running := handleStartFocusMode taskId clk1 s in
  let s' := handleAddCommitment clk2 running in
  (exists c,
     DayData.commitments (dayData (handleAddCommitment clk2 s))
     = DayData.commitments (dayData s) ++ [c]
     /\ Commitment.locked c = false
     /\ focusMode (handleAddCommitment clk2 s) = focusMode s)
  /\ FocusMode.isActive (focusMode running) = true
  /\ forallb Commitment.locked (DayData.commitments (dayData running)) = true
  /\ FocusMode.isActive (focusMode s') = true
  /\ (exists c,
        DayData.commitments (dayData s')
        = DayData.commitments (dayData running) ++ [c]
        /\ Commitment.locked c = false)
  /\ forallb Commitment.locked (DayData.commitments (dayData s')) = false.
Proof.
  intros Hacc running s'.
  assert (count running < 3 \/ (isPro (settings running) = true /\ count running < 4))
    as Hacc'.
  { assert (count running = count s) as ->; [|exact Hacc].
    unfold count, commitmentsCountSelector, running. simpl.
    rewrite length_map. reflexivity. }
  subst s'. rewrite (handleAddCommitment_accepted clk2 s Hacc).
  rewrite (handleAddCommitment_accepted clk2 running Hacc').
  split; [|split; [|split; [|split; [|split]]]].
  - eexists. simpl. split; [reflexivity|]. split; reflexivity.
  - reflexivity.
  - apply forallb_locked_map_lockOf.
  - reflexivity.
  - eexists. simpl. split; reflexivity.
  - simpl. rewrite forallb_app. simpl. apply andb_false_r.
Qed.

Lemma C10_added_task_unlocked_witness :
  (count Sample.twoOpen < 3
   \/ (isPro (settings Sample.twoOpen) = true /\ count Sample.twoOpen < 4))
  /\ forallb Commitment.locked
       (DayData.commitments
          (dayData (handleAddCommitment Sample.clk2
                      (handleStartFocusMode (JS.lit "1") Sample.clk1 Sample.twoOpen))))
     = false.
Proof.
  assert (count Sample.twoOpen < 3
          \/ (isPro (settings Sample.twoOpen) = true /\ count Sample.twoOpen < 4))
    as Hacc by (left; reflexivity).
  split; [exact Hacc|].
  exact (proj2 (proj2 (proj2 (proj2 (proj2
           (C10_added_task_unlocked Sample.twoOpen (JS.lit "1")
              Sample.clk1 Sample.clk2 Hacc)))))).
Defined.

(** ** The countdown *)




(** A tick outside a running session does nothing. *)
Lemma tick_idle (s : Store) :
  FocusMode.isActive (focusMode s) = false -> tick s = s.
Proof. intro H. unfold tick. rewrite H. reflexivity. Qed.


(** ** Invariants of the reachable stores *)

Lemma run_app (ops1 ops2 : list Op) (s : Store) :
  run (ops1 ++ ops2) s = run ops2 (run ops1 s).
Proof. unfold run. apply fold_left_app. Qed.

Lemma step_sessionInv (op : Op) (s : Store) :
  sessionInv s -> sessionInv (step op s).
Proof.
  unfold sessionInv. intros (Ht & Hidle & Hf).
  assert (0 <= FocusMode.timer (focusMode s) <= 1500
          /\ (FocusMode.isActive (focusMode s) = false ->
              FocusMode.currentCommitmentId (focusMode s) = None
              /\ FocusMode.timer (focusMode s) = 0)
          /\ 0 <= DayData.focusTime (dayData s)) as Hkeep
    by (split; [exact Ht | split; [exact Hidle | exact Hf]]).
  destruct op; cbn [step]; try exact Hkeep.
  - unfold handleAddCommitment. cbv zeta.
    destruct (_ && _); [exact Hkeep|]. destruct (_ >=? 4); exact Hkeep.
  - cbn. split; [lia|]. split; [discriminate | exact Hf].
  - unfold tick.
    destruct (_ && _) eqn:E; [|exact Hkeep].
    apply andb_true_iff in E. destruct E as [Hact Hpos].
    apply Z.gtb_lt in Hpos.
    cbn. rewrite Hact. split; [lia|]. split; [discriminate | exact Hf].
  - assert (FocusMode.timer (focusMode s) / 60 <= 25)
      by (apply Z.div_le_upper_bound; lia).
    rewrite handleStopFocusMode_focusTime.
    split; [cbn; lia|]. split; [cbn; auto | lia].
  - unfold MorningModal.handleSubmit. destruct (JS.truthy _); exact Hkeep.
  - unfold ReflectionModal.handleSubmit. destruct (JS.truthy _); exact Hkeep.
  - cbn. split; [lia|]. split; [auto | lia].
  - unfold initializeDay. destruct (_ =? 0); exact Hkeep.
Qed.

Lemma run_sessionInv (ops : list Op) :
  forall s, sessionInv s -> sessionInv (run ops s).
Proof.
  unfold run. induction ops as [|op ops IH]; intros s Hs; simpl; [exact Hs|].
  apply IH, step_sessionInv, Hs.
Qed.

(** X3. In every store reachable from the atoms' defaults the timer lies
    in [0..1500], an inactive session has no current commitment and a zero
    timer, and the accumulated focus time is not negative. *)
Theorem session_invariant (ops : list Op) (clk : Clock) :
  let s := run ops (initialStore clk) in
  0 <= FocusMode.timer (focusMode s) <= 1500
  /\ (FocusMode.isActive (focusMode s) = false ->
      FocusMode.currentCommitmentId (focusMode s) = None
      /\ FocusMode.timer (focusMode s) = 0)
  /\ 0 <= DayData.focusTime (dayData s).
Proof.
  apply (run_sessionInv ops (initialStore clk)).
  unfold sessionInv. simpl. split; [lia|]. split; [auto | lia].
Qed.

Lemma step_focusTime_monotone (op : Op) (s : Store) :
  sessionInv s ->
  (forall c, op <> ResetDay c) ->
  DayData.focusTime (dayData s) <= DayData.focusTime (dayData (step op s)).
Proof.
  intros (Ht & _ & _) Hop.
  destruct op; cbn [step]; try (cbn; lia).
  - unfold handleAddCommitment. cbv zeta.
    destruct (_ && _); [cbn; lia|]. destruct (_ >=? 4); cbn; lia.
  - unfold tick. destruct (_ && _); cbn; lia.
  - rewrite handleStopFocusMode_focusTime.
    assert (FocusMode.timer (focusMode s) / 60 <= 25)
      by (apply Z.div_le_upper_bound; lia).
    lia.
  - unfold MorningModal.handleSubmit. destruct (JS.truthy _); cbn; lia.
  - unfold ReflectionModal.handleSubmit. destruct (JS.truthy _); cbn; lia.
  - exfalso. apply (Hop clk). reflexivity.
  - unfold initializeDay. destruct (_ =? 0); cbn; lia.
Qed.

(** X4. From a reachable store, no operation other than the daily reset
    lowers [focusTime]. *)
Theorem focusTime_monotone (ops : list Op) (clk : Clock) (op : Op) :
  (forall c, op <> ResetDay c) ->
  DayData.focusTime (dayData (run ops (initialStore clk)))
  <= DayData.focusTime (dayData (step op (run ops (initialStore clk)))).
Proof.
  intro Hop. apply step_focusTime_monotone; [|exact Hop].
  apply run_sessionInv. unfold sessionInv. simpl.
  split; [lia|]. split; [auto | lia].
Qed.

Lemma focusTime_monotone_witness :
  (forall c, StopSession Sample.clk3 <> ResetDay c)
  /\ DayData.focusTime
       (dayData (run [InitializeDay Sample.clk1;
                      StartSession (JS.lit "1") Sample.clk2; Tick]
                     (initialStore Sample.clk1)))
     <= DayData.focusTime
          (dayData (step (StopSession Sample.clk3)
                      (run [InitializeDay Sample.clk1;
                            StartSession (JS.lit "1") Sample.clk2; Tick]
                           (initialStore Sample.clk1)))).
Proof.
  assert (forall c, StopSession Sample.clk3 <> ResetDay c) as Hop
    by (intros c; discriminate).
  split; [exact Hop|].
  exact (focusTime_monotone
           [InitializeDay Sample.clk1; StartSession (JS.lit "1") Sample.clk2; Tick]
           Sample.clk1 (StopSession Sample.clk3) Hop).
Defined.

Lemma step_cap (op : Op) (s : Store) :
  count s <= cap (isPro (settings s)) ->
  count (step op s) <= cap (isPro (settings s))
  /\ isPro (settings (step op s)) = isPro (settings s).
Proof.
  intro Hc.
  assert (3 <= cap (isPro (settings s))) as Hcap
    by (unfold cap; destruct (isPro (settings s)); lia).
  destruct op; cbn [step];
    try (split; [exact Hc | reflexivity]).
  - apply handleAddCommitment_cap, Hc.
  - split; [|reflexivity].
    unfold count, commitmentsCountSelector in *. cbn in *.
    rewrite length_map. exact Hc.
  - split; [|reflexivity].
    unfold count, commitmentsCountSelector in *. cbn in *.
    pose proof (filter_length_bound
                  (fun c => negb (JS.eqb (Commitment.id c) id))
                  (DayData.commitments (dayData s))).
    lia.
  - split; [|reflexivity].
    unfold count, commitmentsCountSelector in *. cbn in *.
    rewrite length_map. exact Hc.
  - split; [|reflexivity].
    unfold count, commitmentsCountSelector in *. cbn in *.
    rewrite length_map. exact Hc.
  - unfold tick. destruct (_ && _); split; (exact Hc || reflexivity).
  - unfold MorningModal.handleSubmit.
    destruct (JS.truthy _); split; (exact Hc || reflexivity).
  - unfold ReflectionModal.handleSubmit.
    destruct (JS.truthy _); split; (exact Hc || reflexivity).
  - split; [|reflexivity]. unfold count. cbn. lia.
  - unfold initializeDay. destruct (_ =? 0); [|split; [exact Hc | reflexivity]].
    split; [|reflexivity]. unfold count. cbn. lia.
Qed.

(** X5. Whatever operations are applied, in whatever order, a store within
    its cap (3 commitments, 4 when privileged) stays within it, and the
    privileged flag keeps its value: no operation of the component sets
    [isPro]. *)
Theorem all_operations_keep_cap (ops : list Op) (s : Store) :
  count s <= cap (isPro (settings s)) ->
  count (run ops s) <= cap (isPro (settings s))
  /\ isPro (settings (run ops s)) = isPro (settings s).
Proof.
  unfold run. revert s.
  induction ops as [|op ops IH]; intros s Hc; simpl; [split; [exact Hc | reflexivity]|].
  destruct (step_cap op s Hc) as [Hc' Hpro].
  rewrite <- Hpro in Hc'. destruct (IH _ Hc') as [H1 H2].
  rewrite Hpro in H1, H2. split; assumption.
Qed.

Lemma all_operations_keep_cap_witness :
  count Sample.twoOpen <= cap (isPro (settings Sample.twoOpen))
  /\ count (run [AddTask Sample.clk1; AddTask Sample.clk2;
                 DeleteTask (JS.lit "1") Sample.clk2; AddTask Sample.clk3;
                 ShowUpgradeModal false; AddTask Sample.clk3]
                Sample.twoOpen)
     <= 3.
Proof.
  assert (count Sample.twoOpen <= cap (isPro (settings Sample.twoOpen))) as Hc
    by (vm_compute; discriminate).
  split; [exact Hc|].
  exact (proj1 (all_operations_keep_cap
                  [AddTask Sample.clk1; AddTask Sample.clk2;
                   DeleteTask (JS.lit "1") Sample.clk2; AddTask Sample.clk3;
                   ShowUpgradeModal false; AddTask Sample.clk3]
                  Sample.twoOpen Hc)).
Defined.

(** ** What the score can be *)

Lemma focusScoreSelector_scoreSum (day : DayData.t) :
  focusScoreSelector day = scoreSum day.
Proof.
  rewrite focusScoreSelector_sum. pose proof (scoreSum_range day). lia.
Qed.

Lemma focusScore_multiple_of_20 (day : DayData.t) :
  exists k, 0 <= k <= 5 /\ focusScoreSelector day = 20 * k.
Proof.
  rewrite focusScoreSelector_scoreSum.
  unfold scoreSum, termAllCompleted, termFocusUsed, termReflection, termLocked.
  destruct (DayData.commitments day) as [|c cs];
    try destruct (forallb Commitment.completed (c :: cs));
    destruct (0 <? DayData.focusTime day);
    destruct (JS.length (JS.trim (DayData.reflection day)) =? 0);
    try destruct (existsb Commitment.locked (c :: cs));
    cbn [existsb];
    first [ exists 0; lia | exists 1; lia | exists 2; lia
          | exists 3; lia | exists 4; lia | exists 5; lia ].
Qed.

(** X6. The cap [Math.min(score, 100)] never cuts anything off: the score
    is the plain sum of the four terms, one of 0, 20, 40, 60, 80, 100, and
    it is 100 exactly when the list is non-empty with every commitment
    completed, focus time is positive, the reflection is not blank and
    some commitment is locked. *)
Theorem score_values (day : DayData.t) :
  focusScoreSelector day = scoreSum day
  /\ (exists k, 0 <= k <= 5 /\ focusScoreSelector day = 20 * k)
  /\ (focusScoreSelector day = 100 <->
      DayData.commitments day <> []
      /\ forallb Commitment.completed (DayData.commitments day) = true
      /\ 0 < DayData.focusTime day
      /\ JS.length (JS.trim (DayData.reflection day)) <> 0
      /\ existsb Commitment.locked (DayData.commitments day) = true).
Proof.
  rewrite focusScoreSelector_scoreSum.
  unfold scoreSum, termAllCompleted, termFocusUsed, termReflection, termLocked.
  split; [reflexivity|].
  destruct (DayData.commitments day) as [|c cs] eqn:Hcs;
    destruct (Z.ltb_spec 0 (DayData.focusTime day));
    destruct (Z.eqb_spec (JS.length (JS.trim (DayData.reflection day))) 0);
    try destruct (forallb Commitment.completed (c :: cs));
    try destruct (existsb Commitment.locked (c :: cs));
    cbn [existsb];
    (split;
     [ first [ exists 0; lia | exists 1; lia | exists 2; lia
             | exists 3; lia | exists 4; lia | exists 5; lia ]
     | split;
       [ intro Hs; try lia; repeat split; try reflexivity; try lia; try discriminate
       | intros (Hne & Hall & Hft & Hr & Hl);
         try congruence; try lia; try discriminate ] ]).
Qed.

(** ** Trimming *)

Lemma trimStart_length (s : jsstring) :
  (List.length (JS.trimStart s) <= List.length s)%nat.
Proof.
  induction s as [|c s IH]; simpl; [lia|].
  destruct (JS.isWhiteSpace c); simpl; lia.
Qed.

Lemma trimStart_idem (s : jsstring) :
  JS.trimStart (JS.trimStart s) = JS.trimStart s.
Proof.
  induction s as [|c s IH]; simpl; [reflexivity|].
  destruct (JS.isWhiteSpace c) eqn:E; [exact IH|].
  simpl. rewrite E. reflexivity.
Qed.

Lemma trimStart_suffix (s : jsstring) :
  exists p, s = p ++ JS.trimStart s.
Proof.
  induction s as [|c s [p Hp]]; simpl.
  - exists []. reflexivity.
  - destruct (JS.isWhiteSpace c).
    + exists (c :: p). simpl. rewrite <- Hp. reflexivity.
    + exists []. reflexivity.
Qed.

Lemma trimStart_fixed_prefix (x y : jsstring) :
  JS.trimStart (x ++ y) = x ++ y -> JS.trimStart x = x.
Proof.
  destruct x as [|c x]; simpl; [reflexivity|].
  destruct (JS.isWhiteSpace c); [|reflexivity].
  intro H. pose proof (trimStart_length (x ++ y)) as Hl.
  rewrite H in Hl. simpl in Hl. lia.
Qed.

Lemma trim_idem (s : jsstring) : JS.trim (JS.trim s) = JS.trim s.
Proof.
  unfold JS.trim, JS.trimEnd.
  set (a := JS.trimStart s).
  set (b := JS.trimStart (rev a)).
  assert (JS.trimStart (rev b) = rev b) as Hrb.
  { destruct (trimStart_suffix (rev a)) as [p Hp]. fold b in Hp.
    apply (trimStart_fixed_prefix (rev b) (rev p)).
    rewrite <- rev_app_distr, <- Hp, rev_involutive.
    apply trimStart_idem. }
  rewrite Hrb, rev_involutive.
  unfold b at 1. rewrite trimStart_idem. reflexivity.
Qed.

(** X7. An accepted reflection always earns its 20 points: what the modal
    passes on is already trimmed, so the selector's own trim finds it
    non-blank, and the score becomes the previous score with the
    reflection term set to 20. *)
Theorem reflection_earns_points (s : Store) (text : jsstring) (clk : Clock) :
  JS.length (JS.trim text) <> 0 ->
  let s' := step (SubmitReflection text clk) s in
  termReflection (dayData s') = 20
  /\ focusScoreSelector (dayData s')
     = focusScoreSelector (dayData s) - termReflection (dayData s) + 20
  /\ 20 <= focusScoreSelector (dayData s').
Proof.
  intros Hne s'.
  assert (dayData s'
          = DayData.mk (DayData.date (dayData s)) (DayData.commitments (dayData s))
              (DayData.focusScore (dayData s)) (JS.trim text)
              (DayData.morningQuestion (dayData s)) true
              (DayData.focusTime (dayData s)) (now clk)) as Hd.
  { subst s'. cbn [step]. unfold ReflectionModal.handleSubmit.
    rewrite truthy_length.
    apply Z.eqb_neq in Hne. rewrite Hne. reflexivity. }
  assert (termReflection (dayData s') = 20) as Ht.
  { rewrite Hd. unfold termReflection. cbn [DayData.reflection].
    rewrite trim_idem. apply Z.eqb_neq in Hne. rewrite Hne. reflexivity. }
  rewrite !focusScoreSelector_scoreSum.
  assert (scoreSum (dayData s')
          = scoreSum (dayData s) - termReflection (dayData s) + 20) as Hsum.
  { unfold scoreSum. rewrite Ht. rewrite Hd.
    unfold termAllCompleted, termFocusUsed, termLocked. cbn. lia. }
  split; [exact Ht|]. split; [exact Hsum|].
  rewrite Hsum. pose proof (scoreSum_range (dayData s)) as Hr.
  unfold scoreSum in *.
  assert (0 <= termAllCompleted (dayData s))
    by (unfold termAllCompleted; destruct (DayData.commitments (dayData s));
        [lia | destruct (forallb _ _); lia]).
  assert (0 <= termFocusUsed (dayData s))
    by (unfold termFocusUsed; destruct (_ <? _); lia).
  assert (0 <= termLocked (dayData s))
    by (unfold termLocked; destruct (existsb _ _); lia).
  lia.
Qed.

Lemma reflection_earns_points_witness :
  JS.length (JS.trim (JS.lit " went well ")) <> 0
  /\ focusScoreSelector
       (dayData (step (SubmitReflection (JS.lit " went well ") Sample.clk2)
                   Sample.twoOpen))
     = 20.
Proof.
  assert (JS.length (JS.trim (JS.lit " went well ")) <> 0) as Hne
    by (vm_compute; discriminate).
  split; [exact Hne|].
  exact (proj1 (proj2 (reflection_earns_points Sample.twoOpen
                         (JS.lit " went well ") Sample.clk2 Hne))).
Defined.

(** ** The morning question *)

(** X8. A blank morning answer is refused and changes nothing.  Any other
    answer is stored trimmed and closes the morning modal; it leaves the
    commitments, the reflection, the day-completed flag and the focus time
    alone, so it never moves the score. *)
Theorem morning_question_submit (s : Store) (answer : jsstring) (clk : Clock) :
  let s' := step (SubmitMorningQuestion answer clk) s in
  (JS.length (JS.trim answer) = 0 -> s' = s)
  /\ (JS.length (JS.trim answer) <> 0 ->
      DayData.morningQuestion (dayData s') = JS.trim answer
      /\ showMorningModal (ui s') = false
      /\ DayData.lastUpdated (dayData s') = now clk)
  /\ DayData.commitments (dayData s') = DayData.commitments (dayData s)
  /\ DayData.reflection (dayData s') = DayData.reflection (dayData s)
  /\ DayData.completed (dayData s') = DayData.completed (dayData s)
  /\ DayData.focusTime (dayData s') = DayData.focusTime (dayData s)
  /\ focusScoreSelector (dayData s') = focusScoreSelector (dayData s).
Proof.
  cbn [step]. unfold MorningModal.handleSubmit. rewrite truthy_length.
  destruct (Z.eqb_spec (JS.length (JS.trim answer)) 0) as [Hz | Hnz]; cbn [negb].
  - split; [intros _; reflexivity|].
    split; [intro Habs; contradiction|].
    repeat split; reflexivity.
  - split; [intro Habs; contradiction|].
    split; [intros _; repeat split; reflexivity|].
    repeat split; reflexivity.
Qed.

(** ** Locks *)

Lemma lockOf_terms (cs : list Commitment.t) :
  forallb Commitment.completed (map lockOf cs) = forallb Commitment.completed cs.
Proof.
  induction cs as [|c cs IH]; simpl; [reflexivity|]. rewrite IH. reflexivity.
Qed.

(** X9. Starting a session never lowers the score: the completed, focus
    and reflection terms are untouched, and with a non-empty list the lock
    term becomes 20. *)
Theorem start_session_score (s : Store) (taskId : jsstring) (clk : Clock) :
  let s' := handleStartFocusMode taskId clk s in
  focusScoreSelector (dayData s) <= focusScoreSelector (dayData s')
  /\ termAllCompleted (dayData s') = termAllCompleted (dayData s)
  /\ termFocusUsed (dayData s') = termFocusUsed (dayData s)
  /\ termReflection (dayData s') = termReflection (dayData s)
  /\ termLocked (dayData s')
     = match DayData.commitments (dayData s) with [] => 0 | _ :: _ => 20 end.
Proof.
  intro s'.
  assert (termAllCompleted (dayData s') = termAllCompleted (dayData s)) as H1.
  { unfold termAllCompleted. subst s'. rewrite handleStartFocusMode_commitments.
    rewrite lockOf_terms.
    destruct (DayData.commitments (dayData s)); reflexivity. }
  assert (termLocked (dayData s')
          = match DayData.commitments (dayData s) with [] => 0 | _ :: _ => 20 end)
    as H4.
  { unfold termLocked. subst s'. rewrite handleStartFocusMode_commitments.
    destruct (DayData.commitments (dayData s)); reflexivity. }
  assert (termLocked (dayData s) <= termLocked (dayData s')) as Hle.
  { rewrite H4. unfold termLocked.
    destruct (DayData.commitments (dayData s)); simpl; [lia|].
    destruct (_ || _); lia. }
  rewrite !focusScoreSelector_scoreSum. unfold scoreSum. rewrite H1.
  split; [|split; [reflexivity|split; [reflexivity|split; [reflexivity|exact H4]]]].
  assert (termFocusUsed (dayData s') = termFocusUsed (dayData s)) as -> by reflexivity.
  assert (termReflection (dayData s') = termReflection (dayData s)) as -> by reflexivity.
  lia.
Qed.

(** X10. Locks are for the rest of the day: a locked commitment stays in
    its place, with its id, and stays locked under every operation other
    than deleting and the daily reset; stopping the session unlocks
    nothing. *)
Theorem lock_is_permanent (op : Op) (s : Store) (n : nat) (c : Commitment.t) :
  nth_error (DayData.commitments (dayData s)) n = Some c ->
  Commitment.locked c = true ->
  (forall id clk, op <> DeleteTask id clk) ->
  (forall clk, op <> ResetDay clk) ->
  exists c',
    nth_error (DayData.commitments (dayData (step op s))) n = Some c'
    /\ Commitment.id c' = Commitment.id c
    /\ Commitment.locked c' = true.
Proof.
  intros Hn Hl Hdel Hres.
  assert (exists c', nth_error (DayData.commitments (dayData s)) n = Some c'
                     /\ Commitment.id c' = Commitment.id c
                     /\ Commitment.locked c' = true) as Hkeep
    by (exists c; auto).
  destruct op; cbn [step]; try exact Hkeep.
  - unfold handleAddCommitment. cbv zeta.
    destruct (_ && _); [exact Hkeep|]. destruct (_ >=? 4); [exact Hkeep|].
    exists c. cbn. split; [|auto].
    rewrite nth_error_app1; [exact Hn|].
    apply nth_error_Some. rewrite Hn. discriminate.
  - cbn. rewrite nth_error_map, Hn. cbn.
    destruct (JS.eqb (Commitment.id c) id); eexists; (split; [reflexivity|]); auto.
  - exfalso. apply (Hdel id clk). reflexivity.
  - cbn. rewrite nth_error_map, Hn. cbn.
    destruct (JS.eqb (Commitment.id c) id); eexists; (split; [reflexivity|]); auto.
  - cbn. rewrite nth_error_map, Hn. cbn. eexists. split; [reflexivity|]. auto.
  - unfold tick. destruct (_ && _); exact Hkeep.
  - unfold MorningModal.handleSubmit. destruct (JS.truthy _); exact Hkeep.
  - unfold ReflectionModal.handleSubmit. destruct (JS.truthy _); exact Hkeep.
  - exfalso. apply (Hres clk). reflexivity.
  - unfold initializeDay.
    destruct (DayData.commitments (dayData s)) as [|c0 cs] eqn:Hcs.
    + destruct n; discriminate.
    + replace (Z.of_nat (List.length (c0 :: cs)) =? 0) with false
        by (symmetry; apply Z.eqb_neq; simpl List.length; lia).
      rewrite Hcs. exact Hkeep.
Qed.

Lemma lock_is_permanent_witness :
  nth_error (DayData.commitments (dayData Sample.running300)) 1
  = Some (Sample.task "2" "Write documentation" false true)
  /\ exists c',
       nth_error
         (DayData.commitments
            (dayData (step (StopSession Sample.clk3) Sample.running300))) 1
       = Some c'
       /\ Commitment.id c' = JS.lit "2"
       /\ Commitment.locked c' = true.
Proof.
  split; [reflexivity|].
  apply (lock_is_permanent (StopSession Sample.clk3) Sample.running300 1
           (Sample.task "2" "Write documentation" false true)
           eq_refl eq_refl);
    intros; discriminate.
Defined.

(** ** Editing the list *)

Lemma JS_eqb_neq (a b : jsstring) : JS.eqb a b = false <-> a <> b.
Proof.
  split.
  - intros H Heq. apply JS_eqb_eq in Heq. congruence.
  - intro H. destruct (JS.eqb a b) eqn:E; [|reflexivity].
    apply JS_eqb_eq in E. contradiction.
Qed.

(** X11. UpdateTask keeps the list's length and order and touches nothing
    but the text and the stamp of the commitments carrying the id: every
    commitment of another id is left exactly as it was, and no id,
    completed flag, lock, time slot or creation time changes.  With an id
    that is not in the list the commitments are unchanged. *)
Theorem update_touches_only_target (s : Store) (id text : jsstring) (clk : Clock) :
  let cs := DayData.commitments (dayData s) in
  let cs' := DayData.commitments (dayData (handleUpdateCommitment id text clk s)) in
  map Commitment.id cs' = map Commitment.id cs
  /\ map Commitment.completed cs' = map Commitment.completed cs
  /\ map Commitment.locked cs' = map Commitment.locked cs
  /\ map Commitment.timeSlot cs' = map Commitment.timeSlot cs
  /\ map Commitment.createdAt cs' = map Commitment.createdAt cs
  /\ (forall n c, nth_error cs n = Some c -> Commitment.id c <> id ->
                  nth_error cs' n = Some c)
  /\ (~ In id (map Commitment.id cs) -> cs' = cs).
Proof.
  intros cs cs'. subst cs'. cbn. fold cs.
  repeat split;
    try (rewrite map_map; apply map_ext; intro c;
         destruct (JS.eqb (Commitment.id c) id); reflexivity).
  - intros n c Hn Hne. rewrite nth_error_map, Hn. cbn.
    apply JS_eqb_neq in Hne. rewrite Hne. reflexivity.
  - intro Hnin. induction cs as [|c cs0 IH]; [reflexivity|].
    cbn. rewrite IH by (intro H; apply Hnin; right; exact H).
    replace (JS.eqb (Commitment.id c) id) with false; [reflexivity|].
    symmetry. apply JS_eqb_neq. intro Heq. apply Hnin. left. exact Heq.
Qed.

Lemma filter_other_ids (id : jsstring) (cs : list Commitment.t) :
  map Commitment.id (filter (fun c => negb (JS.eqb (Commitment.id c) id)) cs)
  = filter (fun i => negb (JS.eqb i id)) (map Commitment.id cs).
Proof.
  induction cs as [|c cs IH]; cbn; [reflexivity|].
  destruct (JS.eqb (Commitment.id c) id); cbn; rewrite IH; reflexivity.
Qed.

Lemma filter_out_absent (id : jsstring) (l : list jsstring) :
  ~ In id l -> filter (fun i => negb (JS.eqb i id)) l = l.
Proof.
  induction l as [|i l IH]; cbn; intro Hnin; [reflexivity|].
  replace (JS.eqb i id) with false
    by (symmetry; apply JS_eqb_neq; intro Heq; apply Hnin; left; exact Heq).
  cbn. rewrite IH by (intro H; apply Hnin; right; exact H). reflexivity.
Qed.

Lemma filter_out_once (id : jsstring) (l : list jsstring) :
  NoDup l -> In id l ->
  S (List.length (filter (fun i => negb (JS.eqb i id)) l)) = List.length l.
Proof.
  induction l as [|i l IH]; cbn; intros Hnd Hin; [contradiction|].
  inversion Hnd as [|? ? Hni Hnd']; subst.
  destruct (JS.eqb i id) eqn:E; cbn.
  - apply JS_eqb_eq in E. subst i.
    rewrite filter_out_absent by exact Hni. reflexivity.
  - destruct Hin as [Heq | Hin].
    + apply JS_eqb_neq in E. contradiction.
    + rewrite IH by assumption. reflexivity.
Qed.

Lemma filter_commitments_absent (id : jsstring) (cs : list Commitment.t) :
  ~ In id (map Commitment.id cs) ->
  filter (fun c => negb (JS.eqb (Commitment.id c) id)) cs = cs.
Proof.
  induction cs as [|c cs IH]; cbn; intro Hnin; [reflexivity|].
  replace (JS.eqb (Commitment.id c) id) with false
    by (symmetry; apply JS_eqb_neq; intro Heq; apply Hnin; left; exact Heq).
  cbn. rewrite IH by (intro H; apply Hnin; right; exact H). reflexivity.
Qed.

(** X12. DeleteTask keeps exactly the commitments of the other ids, in
    their order; when the ids of the list are distinct and the id is among
    them, the count drops by exactly one, and an id that is not in the
    list removes nothing. *)
Theorem delete_removes_the_target (s : Store) (id : jsstring) (clk : Clock) :
  NoDup (ids s) ->
  let s' := handleDeleteCommitment id clk s in
  (forall c, In c (DayData.commitments (dayData s')) <->
             In c (DayData.commitments (dayData s)) /\ Commitment.id c <> id)
  /\ ids s' = filter (fun i => negb (JS.eqb i id)) (ids s)
  /\ NoDup (ids s')
  /\ (In id (ids s) -> count s' = count s - 1)
  /\ (~ In id (ids s) ->
      DayData.commitments (dayData s') = DayData.commitments (dayData s)).
Proof.
  intros Hnd s'.
  assert (ids s' = filter (fun i => negb (JS.eqb i id)) (ids s)) as Hids
    by (subst s'; unfold ids; cbn; apply filter_other_ids).
  split; [|split; [exact Hids|split; [|split]]].
  - intro c. subst s'. cbn. rewrite filter_In.
    split; intros [Hin Hne]; (split; [exact Hin|]).
    + apply negb_true_iff, JS_eqb_neq in Hne. exact Hne.
    + apply negb_true_iff, JS_eqb_neq. exact Hne.
  - rewrite Hids. apply NoDup_filter, Hnd.
  - intro Hin. pose proof (filter_out_once id (ids s) Hnd Hin) as Hlen.
    rewrite <- Hids in Hlen. unfold ids in Hlen. rewrite !length_map in Hlen.
    unfold count, commitmentsCountSelector. cbn [total]. lia.
  - intro Hnin. subst s'. cbn. apply filter_commitments_absent. exact Hnin.
Qed.

Lemma delete_removes_the_target_witness :
  NoDup (ids Sample.twoOpen)
  /\ ids (handleDeleteCommitment (JS.lit "1") Sample.clk2 Sample.twoOpen)
     = [JS.lit "2"].
Proof.
  assert (NoDup (ids Sample.twoOpen)) as Hnd.
  { repeat constructor; cbn; intuition discriminate. }
  split; [exact Hnd|].
  exact (proj1 (proj2 (delete_removes_the_target Sample.twoOpen (JS.lit "1")
                         Sample.clk2 Hnd))).
Defined.

(** ** Ids *)

Lemma lit_injective (a b : string) : JS.lit a = JS.lit b -> a = b.
Proof.
  revert b. induction a as [|x a IH]; intros [|y b] H; cbn in H;
    try discriminate; [reflexivity|].
  injection H as Hxy Hab. f_equal; [|apply IH, Hab].
  rewrite <- (ascii_N_embedding x), <- (ascii_N_embedding y), Hxy. reflexivity.
Qed.

Lemma toString_injective (a b : Z) : JS.toString a = JS.toString b -> a = b.
Proof.
  unfold JS.toString. intro H. apply lit_injective in H.
  assert (Some (Z.to_int a) = Some (Z.to_int b)) as Hs
    by (rewrite <- !NilEmpty.isi, H; reflexivity).
  injection Hs as Hs.
  rewrite <- (DecimalZ.of_to a), <- (DecimalZ.of_to b), Hs. reflexivity.
Qed.

Lemma NoDup_snoc {A : Type} (l : list A) (x : A) :
  NoDup l -> ~ In x l -> NoDup (l ++ [x]).
Proof.
  induction l as [|a l IH]; cbn; intros Hnd Hnin.
  - constructor; [intros [] | constructor].
  - inversion Hnd as [|? ? Ha Hl]; subst. constructor.
    + rewrite in_app_iff. cbn. intros [H | [H | []]]; [contradiction|].
      apply Hnin. left. symmetry. exact H.
    + apply IH; [exact Hl|]. intro H. apply Hnin. right. exact H.
Qed.

Lemma ids_map (f : Commitment.t -> Commitment.t) (cs : list Commitment.t) :
  (forall c, Commitment.id (f c) = Commitment.id c) ->
  map Commitment.id (map f cs) = map Commitment.id cs.
Proof. intro Hf. rewrite map_map. apply map_ext. exact Hf. Qed.

(** X13. Distinct ids stay distinct under every operation, provided an
    AddTask reads a clock whose decimal rendering is not yet an id of the
    list; and two different clock readings never render to the same id. *)
Theorem ids_stay_unique (op : Op) (s : Store) :
  NoDup (ids s) ->
  (forall clk, op = AddTask clk -> ~ In (JS.toString (now clk)) (ids s)) ->
  NoDup (ids (step op s))
  /\ (forall clk1 clk2, now clk1 <> now clk2 ->
        JS.toString (now clk1) <> JS.toString (now clk2)).
Proof.
  intros Hnd Hfresh. split.
  2:{ intros clk1 clk2 Hne Heq. apply Hne, toString_injective, Heq. }
  destruct op; cbn [step]; try exact Hnd.
  - unfold handleAddCommitment. cbv zeta.
    destruct (_ && _); [exact Hnd|]. destruct (_ >=? 4); [exact Hnd|].
    unfold ids. cbn. rewrite map_app. cbn.
    apply NoDup_snoc; [exact Hnd | apply (Hfresh clk eq_refl)].
  - unfold ids in *. cbn. rewrite ids_map; [exact Hnd|].
    intro c. destruct (JS.eqb _ _); reflexivity.
  - unfold ids in *. cbn. rewrite filter_other_ids. apply NoDup_filter, Hnd.
  - unfold ids in *. cbn. rewrite ids_map; [exact Hnd|].
    intro c. destruct (JS.eqb _ _); reflexivity.
  - unfold ids in *. cbn. rewrite ids_map; [exact Hnd | reflexivity].
  - unfold tick. destruct (_ && _); exact Hnd.
  - unfold MorningModal.handleSubmit. destruct (JS.truthy _); exact Hnd.
  - unfold ReflectionModal.handleSubmit. destruct (JS.truthy _); exact Hnd.
  - constructor.
  - unfold initializeDay. destruct (_ =? 0); [|exact Hnd].
    unfold ids. cbn. repeat constructor; cbn; intuition discriminate.
Qed.

Lemma ids_stay_unique_witness :
  NoDup (ids Sample.twoOpen)
  /\ (forall clk, AddTask Sample.clk2 = AddTask clk ->
        ~ In (JS.toString (now clk)) (ids Sample.twoOpen))
  /\ NoDup (ids (step (AddTask Sample.clk2) Sample.twoOpen)).
Proof.
  assert (NoDup (ids Sample.twoOpen)) as Hnd.
  { repeat constructor; cbn; intuition discriminate. }
  assert (forall clk, AddTask Sample.clk2 = AddTask clk ->
            ~ In (JS.toString (now clk)) (ids Sample.twoOpen)) as Hfresh.
  { intros clk Heq. injection Heq as <-. cbn. intuition discriminate. }
  split; [exact Hnd|]. split; [exact Hfresh|].
  exact (proj1 (ids_stay_unique (AddTask Sample.clk2) Sample.twoOpen Hnd Hfresh)).
Defined.

(** ** What the buttons let through *)

(** X14. Every button that starts a session respects the precondition:
    for a commitment of the list, a click changes the store only if a
    commitment of that id is not completed.  On a completed commitment
    both the card's Focus button and the Focus Actions button do nothing;
    on a locked, uncompleted one the card refuses while the Focus Actions
    button starts the session. *)
Theorem start_buttons_guard (c : Commitment.t) (clk : Clock) (s : Store) :
  In c (DayData.commitments (dayData s)) ->
  (startable (Commitment.id c) s = false ->
   CommitmentCard.clickFocus c clk s = s /\ FocusActions.click c clk s = s)
  /\ (Commitment.completed c = true ->
      CommitmentCard.clickFocus c clk s = s /\ FocusActions.click c clk s = s)
  /\ (Commitment.completed c = false -> Commitment.locked c = true ->
      CommitmentCard.clickFocus c clk s = s
      /\ FocusActions.click c clk s = handleStartFocusMode (Commitment.id c) clk s)
  /\ (Commitment.completed c = false -> Commitment.locked c = false ->
      CommitmentCard.clickFocus c clk s = handleStartFocusMode (Commitment.id c) clk s
      /\ FocusActions.click c clk s = handleStartFocusMode (Commitment.id c) clk s).
Proof.
  intro Hin. unfold CommitmentCard.clickFocus, FocusActions.click.
  split; [|split; [|split]].
  - intro Hns.
    assert (Commitment.completed c = true) as Hc.
    { destruct (Commitment.completed c) eqn:E; [reflexivity|].
      unfold startable in Hns.
      assert (existsb
                (fun c0 => JS.eqb (Commitment.id c0) (Commitment.id c)
                           && negb (Commitment.completed c0))
                (DayData.commitments (dayData s)) = true) as Habs.
      { apply existsb_exists. exists c. split; [exact Hin|].
        rewrite JS_eqb_refl, E. reflexivity. }
      congruence. }
    rewrite Hc. split; reflexivity.
  - intros ->. split; reflexivity.
  - intros -> ->. split; reflexivity.
  - intros -> ->. split; reflexivity.
Qed.

Lemma start_buttons_guard_witness :
  In (Sample.task "1" "Write documentation" true false)
     (DayData.commitments (dayData Sample.completedOne))
  /\ FocusActions.click (Sample.task "1" "Write documentation" true false)
       Sample.clk2 Sample.completedOne
     = Sample.completedOne.
Proof.
  assert (In (Sample.task "1" "Write documentation" true false)
             (DayData.commitments (dayData Sample.completedOne))) as Hin
    by (left; reflexivity).
  split; [exact Hin|].
  exact (proj2 (proj1 (start_buttons_guard
                         (Sample.task "1" "Write documentation" true false)
                         Sample.clk2 Sample.completedOne Hin) eq_refl)).
Defined.

(** ** Saving from the card *)

(** X15. The card saves only a text that is not blank, and then stores it
    as typed, untrimmed, on the commitment of the card and closes the
    editor; a blank text leaves the editor open and the store untouched. *)
Theorem card_save (c : Commitment.t) (clk : Clock) (l : CommitmentCard.Local)
    (s : Store) :
  let r := CommitmentCard.handleSave c clk (l, s) in
  (JS.length (JS.trim (CommitmentCard.text l)) = 0 -> r = (l, s))
  /\ (JS.length (JS.trim (CommitmentCard.text l)) <> 0 ->
      CommitmentCard.isEditing (fst r) = false
      /\ CommitmentCard.text (fst r) = CommitmentCard.text l
      /\ snd r = handleUpdateCommitment (Commitment.id c) (CommitmentCard.text l) clk s
      /\ forall n c0,
           nth_error (DayData.commitments (dayData s)) n = Some c0 ->
           Commitment.id c0 = Commitment.id c ->
           exists c',
             nth_error (DayData.commitments (dayData (snd r))) n = Some c'
             /\ Commitment.text c' = CommitmentCard.text l).
Proof.
  unfold CommitmentCard.handleSave. rewrite truthy_length.
  destruct (Z.eqb_spec (JS.length (JS.trim (CommitmentCard.text l))) 0)
    as [Hz | Hnz]; cbn [negb].
  - split; [reflexivity | intro Habs; contradiction].
  - split; [intro Habs; contradiction|]. intros _.
    cbn [fst snd]. split; [reflexivity|]. split; [reflexivity|].
    split; [reflexivity|].
    intros n c0 Hn Hid. cbn. rewrite nth_error_map, Hn. cbn.
    rewrite Hid, JS_eqb_refl. eexists. split; reflexivity.
Qed.

(** ** The demo seeding *)

(** X16. After the seeding effect the list is never empty: a non-empty
    list is left alone, an empty one receives the three samples with ids
    1, 2, 3, all open and unlocked; running the effect again changes
    nothing. *)
Theorem initializeDay_never_empty (s : Store) (clk clk' : Clock) :
  let s' := initializeDay clk s in
  0 < count s'
  /\ (DayData.commitments (dayData s) <> [] -> s' = s)
  /\ (DayData.commitments (dayData s) = [] ->
      ids s' = [JS.lit "1"; JS.lit "2"; JS.lit "3"]
      /\ map Commitment.completed (DayData.commitments (dayData s'))
         = [false; false; false]
      /\ map Commitment.locked (DayData.commitments (dayData s'))
         = [false; false; false])
  /\ initializeDay clk' s' = s'.
Proof.
  unfold initializeDay.
  destruct (DayData.commitments (dayData s)) as [|c cs] eqn:Hcs.
  - cbn. split; [unfold count; cbn; lia|].
    split; [intro H; contradiction|]. split; [intros _; repeat split|].
    reflexivity.
  - assert ((Z.of_nat (List.length (c :: cs)) =? 0) = false) as E
      by (apply Z.eqb_neq; simpl List.length; lia).
    rewrite E. cbn zeta. rewrite Hcs, E.
    split; [unfold count, commitmentsCountSelector; cbn [total]; rewrite Hcs;
            simpl List.length; lia|].
    split; [reflexivity|]. split; [discriminate | reflexivity].
Qed.

(** X17. A reset followed by the seeding effect always ends with the three
    samples and a score of 0, whatever the day was before; on a
    non-privileged account that list is already at its cap, so the next
    AddTask is refused and raises the upgrade modal. *)
Theorem reset_then_seed (s : Store) (clk clk' clk'' : Clock) :
  let d := initializeDay clk' (handleDailyReset clk s) in
  ids d = [JS.lit "1"; JS.lit "2"; JS.lit "3"]
  /\ focusScoreSelector (dayData d) = 0
  /\ focusMode d = FocusMode.mk false None 0
  /\ (isPro (settings s) = false ->
      dayData (handleAddCommitment clk'' d) = dayData d
      /\ showUpgradeModal (ui (handleAddCommitment clk'' d)) = true).
Proof.
  cbn zeta.
  split; [reflexivity|]. split; [reflexivity|]. split; [reflexivity|].
  intro Hpro.
  split.
  - apply handleAddCommitment_refused. left. split; [|exact Hpro].
    unfold count. cbn. lia.
  - apply handleAddCommitment_upgrade; [|exact Hpro]. unfold count. cbn. lia.
Qed.

(** ** The counts selector *)

(** X18. The completed and locked counts never exceed the total; the
    completed count equals the total exactly when every commitment is
    completed, and right after StartSession the locked count is the
    total. *)
Theorem counts_bounds (s : Store) (taskId : jsstring) (clk : Clock) :
  let k := commitmentsCountSelector (dayData s) in
  let k' := commitmentsCountSelector (dayData (handleStartFocusMode taskId clk s)) in
  0 <= completedCount k <= total k
  /\ 0 <= lockedCount k <= total k
  /\ (completedCount k = total k <->
      forallb Commitment.completed (DayData.commitments (dayData s)) = true)
  /\ lockedCount k' = total k'
  /\ total k' = total k
  /\ completedCount k' = completedCount k.
Proof.
  cbn zeta. unfold commitmentsCountSelector.
  cbn [total completedCount lockedCount].
  rewrite handleStartFocusMode_commitments.
  pose proof (filter_length_bound Commitment.completed
                (DayData.commitments (dayData s))).
  pose proof (filter_length_bound Commitment.locked
                (DayData.commitments (dayData s))).
  split; [lia|]. split; [lia|]. split; [|split; [|split]].
  - rewrite <- filter_length_all. lia.
  - f_equal. apply filter_length_all, forallb_locked_map_lockOf.
  - rewrite length_map. reflexivity.
  - f_equal. clear. induction (DayData.commitments (dayData s)) as [|c cs IH];
      [reflexivity|].
    cbn. destruct (Commitment.completed c); cbn; rewrite IH; reflexivity.
Qed.

(** ** The theme switch *)

(** X19. Switching the theme twice gives back the store; one switch
    changes the theme and nothing else. *)
Theorem toggleTheme_involutive (s : Store) :
  toggleTheme (toggleTheme s) = s
  /\ theme (settings (toggleTheme s)) <> theme (settings s)
  /\ isPro (settings (toggleTheme s)) = isPro (settings s)
  /\ dailyResetTime (settings (toggleTheme s)) = dailyResetTime (settings s)
  /\ dayData (toggleTheme s) = dayData s
  /\ focusMode (toggleTheme s) = focusMode s
  /\ ui (toggleTheme s) = ui s.
Proof.
  destruct s as [d [t p r] f u].
  destruct t; cbn; repeat split; try reflexivity; discriminate.
Qed.

(** ** Graph colours *)

Ltac graph_cases x th :=
  unfold getGraphColor;
  destruct (Z.eqb_spec x 0); destruct (Z.leb_spec x 25);
  destruct (Z.leb_spec x 50); destruct (Z.leb_spec x 75);
  destruct th; cbn;
  (split;
   [ let Hc := fresh "Hc" in intro Hc; try lia; try discriminate Hc
   | let Hc := fresh "Hc" in intro Hc; try lia; try reflexivity ]).

(** X20. In both themes the graph colour is the border colour exactly for
    a score of 0 and the bright green [#52C881] exactly for a score above
    75; the three colours in between belong to 1..25, 26..50 and 51..75.
    So of the scores the selector can produce, 80 and 100 share the
    "perfect day" colour. *)
Theorem graph_color_buckets (score : Z) (th : Theme) (day : DayData.t) :
  let theme := colorThemes th in
  (getGraphColor score theme = ColorTheme.border theme <-> score = 0)
  /\ (getGraphColor score theme = JS.lit "#52C881" <-> 75 < score)
  /\ (getGraphColor score theme = ColorTheme.accentSoft theme <->
      score <> 0 /\ score <= 25)
  /\ (getGraphColor score theme = ColorTheme.accent theme <-> 25 < score <= 50)
  /\ (getGraphColor score theme = ColorTheme.success theme <-> 50 < score <= 75)
  /\ (getGraphColor (focusScoreSelector day) theme = JS.lit "#52C881" <->
      80 <= focusScoreSelector day).
Proof.
  cbn zeta.
  assert (forall x,
            (getGraphColor x (colorThemes th) = JS.lit "#52C881" <-> 75 < x)) as Hbright
    by (intro x; graph_cases x th).
  split; [|split; [apply Hbright|split; [|split; [|split]]]].
  - graph_cases score th.
  - graph_cases score th.
  - graph_cases score th.
  - graph_cases score th.
  - rewrite Hbright.
    destruct (focusScore_multiple_of_20 day) as (k & Hk & Hv). lia.
Qed.

(** ** The clock display *)

Lemma two_digits_table :
  forallb
    (fun k =>
       JS.eqb (padStart 2 (JS.lit "0") (JS.toString (Z.of_nat k)))
              [Z.to_N (48 + Z.of_nat k / 10); Z.to_N (48 + Z.of_nat k mod 10)])
    (seq 0 60)
  = true.
Proof. vm_compute. reflexivity. Qed.

Lemma two_digits (r : Z) :
  0 <= r < 60 ->
  padStart 2 (JS.lit "0") (JS.toString r)
  = [Z.to_N (48 + r / 10); Z.to_N (48 + r mod 10)].
Proof.
  intro Hr. pose proof two_digits_table as Ht.
  rewrite forallb_forall in Ht.
  specialize (Ht (Z.to_nat r)).
  rewrite Z2Nat.id in Ht by lia.
  apply JS_eqb_eq, Ht, in_seq. lia.
Qed.

Lemma formatTime_nonneg (seconds : Z) :
  0 <= seconds ->
  formatTime seconds
  = JS.toString (seconds / 60)
    ++ [58%N; Z.to_N (48 + (seconds mod 60) / 10);
        Z.to_N (48 + (seconds mod 60) mod 10)].
Proof.
  intro Hs. unfold formatTime. cbv zeta.
  rewrite Z.rem_mod_nonneg by lia.
  rewrite two_digits by (apply Z.mod_pos_bound; lia).
  reflexivity.
Qed.

(** X21. For a number of seconds that is a non-negative integer below
    [2^53], where the double arithmetic of the source is exact, the
    display is the minutes in decimal, a colon, and the seconds of the
    minute as exactly two decimal digits. *)
Theorem formatTime_shape (seconds : Z) :
  0 <= seconds < 2 ^ 53 ->
  formatTime seconds
  = JS.toString (seconds / 60)
    ++ JS.lit ":"
    ++ [Z.to_N (48 + (seconds mod 60) / 10); Z.to_N (48 + (seconds mod 60) mod 10)].
Proof.
  intros [Hs _]. unfold formatTime. cbv zeta.
  rewrite Z.rem_mod_nonneg by lia.
  rewrite two_digits by (apply Z.mod_pos_bound; lia).
  reflexivity.
Qed.

Lemma formatTime_shape_witness :
  0 <= 1500 < 2 ^ 53
  /\ formatTime 1500 = JS.lit "25:00"
  /\ 0 <= 299 < 2 ^ 53
  /\ formatTime 299 = JS.lit "4:59".
Proof.
  assert (0 <= 1500 < 2 ^ 53) as H1 by (split; [discriminate | reflexivity]).
  assert (0 <= 299 < 2 ^ 53) as H2 by (split; [discriminate | reflexivity]).
  split; [exact H1|]. split; [exact (formatTime_shape 1500 H1)|].
  split; [exact H2 | exact (formatTime_shape 299 H2)].
Defined.

(** X22. Two different non-negative remaining times are never displayed
    alike. *)
Theorem formatTime_injective (a b : Z) :
  0 <= a -> 0 <= b -> formatTime a = formatTime b -> a = b.
Proof.
  intros Ha Hb H.
  rewrite (formatTime_nonneg a Ha), (formatTime_nonneg b Hb) in H.
  set (ra := a mod 60) in *. set (rb := b mod 60) in *.
  assert (0 <= ra < 60) as Hra by (apply Z.mod_pos_bound; lia).
  assert (0 <= rb < 60) as Hrb by (apply Z.mod_pos_bound; lia).
  assert (List.length (JS.toString (a / 60)) = List.length (JS.toString (b / 60)))
    as Hlen.
  { apply (f_equal (@List.length N)) in H. rewrite !length_app in H.
    simpl List.length in H. lia. }
  assert (JS.toString (a / 60) = JS.toString (b / 60)
          /\ [58%N; Z.to_N (48 + ra / 10); Z.to_N (48 + ra mod 10)]
             = [58%N; Z.to_N (48 + rb / 10); Z.to_N (48 + rb mod 10)]) as [Hm Hd].
  { clear - H Hlen.
    revert H Hlen. generalize (JS.toString (b / 60)) as y.
    induction (JS.toString (a / 60)) as [|x xs IH]; intros [|y ys] H Hlen;
      simpl in Hlen; try discriminate.
    - split; [reflexivity | exact H].
    - injection H as Hx Hrest. injection Hlen as Hlen.
      destruct (IH ys Hrest Hlen) as [-> ?]. subst. split; [reflexivity | assumption]. }
  apply toString_injective in Hm.
  injection Hd as Hd1 Hd0.
  assert (0 <= ra / 10 < 6) by (split; [apply Z.div_pos; lia | apply Z.div_lt_upper_bound; lia]).
  assert (0 <= rb / 10 < 6) by (split; [apply Z.div_pos; lia | apply Z.div_lt_upper_bound; lia]).
  assert (0 <= ra mod 10 < 10) by (apply Z.mod_pos_bound; lia).
  assert (0 <= rb mod 10 < 10) by (apply Z.mod_pos_bound; lia).
  assert (48 + ra / 10 = 48 + rb / 10) as Ht
    by (apply Z2N.inj; [lia | lia | exact Hd1]).
  assert (48 + ra mod 10 = 48 + rb mod 10) as Hu
    by (apply Z2N.inj; [lia | lia | exact Hd0]).
  assert (ra = rb).
  { rewrite (Z.div_mod ra 10), (Z.div_mod rb 10) by lia. lia. }
  rewrite (Z.div_mod a 60), (Z.div_mod b 60) by lia. fold ra rb. lia.
Qed.

Lemma formatTime_injective_witness :
  0 <= 300 /\ 0 <= 300
  /\ formatTime 300 = formatTime (5 * 60)
  /\ 300 = 5 * 60.
Proof.
  assert (0 <= 300) as H by lia.
  assert (formatTime 300 = formatTime (5 * 60)) as He by reflexivity.
  split; [exact H|]. split; [exact H|]. split; [exact He|].
  exact (formatTime_injective 300 (5 * 60) H H He).
Defined.

(** ** The rotating placeholder *)

(** X23. The placeholder index stays inside the array: from an index of
    [0..5] one rotation gives the next index modulo 6, which still selects
    a placeholder, with nothing else in the UI atom changed, and six
    rotations come back to where they started. *)
Theorem placeholder_rotation (u : Variant.Ui) :
  0 <= Variant.currentPlaceholder u < 6 ->
  let u' := rotatePlaceholder u in
  Variant.currentPlaceholder u' = (Variant.currentPlaceholder u + 1) mod 6
  /\ 0 <= Variant.currentPlaceholder u' < 6
  /\ (exists p, currentPlaceholderText u' = Some p)
  /\ Variant.mobileActiveTab u' = Variant.mobileActiveTab u
  /\ Variant.showMorningModal u' = Variant.showMorningModal u
  /\ Variant.showUpgradeModal u' = Variant.showUpgradeModal u
  /\ Nat.iter 6 rotatePlaceholder u = u.
Proof.
  intros Hr u'. subst u'.
  destruct u as [m r g f d p t]. cbn in Hr.
  assert (p = 0 \/ p = 1 \/ p = 2 \/ p = 3 \/ p = 4 \/ p = 5) as Hp by lia.
  destruct Hp as [-> | [-> | [-> | [-> | [-> | ->]]]]];
    cbn; repeat split; try reflexivity; try lia; eexists; reflexivity.
Qed.

Lemma placeholder_rotation_witness :
  0 <= Variant.currentPlaceholder
         (Variant.mkUi true false false false false 5 Variant.today) < 6
  /\ Variant.currentPlaceholder
       (rotatePlaceholder (Variant.mkUi true false false false false 5 Variant.today))
     = 0.
Proof.
  assert (0 <= Variant.currentPlaceholder
                 (Variant.mkUi true false false false false 5 Variant.today) < 6)
    as Hr by (cbn; lia).
  split; [exact Hr|].
  exact (proj1 (placeholder_rotation
                  (Variant.mkUi true false false false false 5 Variant.today) Hr)).
Defined.

(** ** Filling the list *)

(** X24. A sequence of AddTask calls fills the list up to the cap and no
    further: after [k] calls the count is the smaller of the cap and the
    initial count plus [k]. *)
Theorem add_saturates (clks : list Clock) (s : Store) :
  count s <= cap (isPro (settings s)) ->
  count (addMany clks s)
  = Z.min (cap (isPro (settings s))) (count s + Z.of_nat (List.length clks)).
Proof.
  unfold addMany. revert s.
  induction clks as [|clk clks IH]; intros s Hc.
  - cbn [fold_left List.length]. lia.
  - cbn [fold_left]. destruct (handleAddCommitment_cap clk s Hc) as [Hc' Hpro].
    rewrite <- Hpro in Hc'. rewrite (IH _ Hc'), Hpro.
    simpl List.length. rewrite Nat2Z.inj_succ.
    destruct (Z.lt_ge_cases (count s) (cap (isPro (settings s)))) as [Hlt | Hge].
    + rewrite handleAddCommitment_accepted, count_setDayData_app; [lia|].
      unfold cap in Hlt.
      destruct (isPro (settings s)); [right; split; [reflexivity | lia] | left; lia].
    + destruct (handleAddCommitment_refused clk s) as (Hd & _).
      * unfold cap in Hge.
        destruct (isPro (settings s)); [right; lia | left; split; [lia | reflexivity]].
      * unfold count in *. rewrite Hd. lia.
Qed.

Lemma add_saturates_witness :
  count Sample.twoOpen <= cap (isPro (settings Sample.twoOpen))
  /\ count (addMany [Sample.clk1; Sample.clk2; Sample.clk3] Sample.twoOpen) = 3.
Proof.
  assert (count Sample.twoOpen <= cap (isPro (settings Sample.twoOpen))) as Hc
    by (vm_compute; discriminate).
  split; [exact Hc|].
  exact (add_saturates [Sample.clk1; Sample.clk2; Sample.clk3] Sample.twoOpen Hc).
Defined.

(** ** Stopping without a session *)


